From stdpp Require Import gmap strings list fin_maps functions pretty.
From Stdlib Require Import ZArith Ascii.

Local Open Scope string_scope.
Local Open Scope list_scope.

(** * openaccess-wikidata: the artwork synchronisation routine

    A shallow embedding of [OpenAccessWikiData._sync_wikidata_artwork]
    (src/__init__.py) and the properties its specification states about it.

    Python [str] values are Rocq strings whose characters are the code
    points below 256; the record of an artwork, the claim objects of the
    Wikidata client and the remote items are modelled as the code uses them. *)

(** ** Python string operations used by the routine *)

Module PyStr.

Definition nl : string := String (ascii_of_nat 10) "".
Definition cr : string := String (ascii_of_nat 13) "".
Definition tab : string := String (ascii_of_nat 9) "".

(** [str.isspace] on one character: the white space of [strip],
    [lstrip] and [rstrip] called without argument. *)
Definition is_space (c : ascii) : bool :=
  let n := nat_of_ascii c in
  ((9 <=? n)%nat && (n <=? 13)%nat) || ((28 <=? n)%nat && (n <=? 32)%nat)
  || (n =? 133)%nat || (n =? 160)%nat.

(** [s.lstrip()] *)
Fixpoint lstrip (s : string) : string :=
  match s with
  | String c s' => if is_space c then lstrip s' else s
  | EmptyString => EmptyString
  end.

(** [s.rstrip()] *)
Fixpoint rstrip (s : string) : string :=
  match s with
  | String c s' =>
      match rstrip s' with
      | EmptyString => if is_space c then EmptyString else String c EmptyString
      | r => String c r
      end
  | EmptyString => EmptyString
  end.

(** [s.replace(a, b)] for one-character [a] and [b]. *)
Fixpoint replace (a b : ascii) (s : string) : string :=
  match s with
  | String c s' => String (if Ascii.eqb c a then b else c) (replace a b s')
  | EmptyString => EmptyString
  end.

Definition lower_char (c : ascii) : ascii :=
  let n := nat_of_ascii c in
  if ((65 <=? n)%nat && (n <=? 90)%nat)
     || ((192 <=? n)%nat && (n <=? 222)%nat && negb (n =? 215)%nat)
  then ascii_of_nat (n + 32) else c.

(** [s.lower()] *)
Fixpoint lower (s : string) : string :=
  match s with
  | String c s' => String (lower_char c) (lower s')
  | EmptyString => EmptyString
  end.

(** [len(s)] *)
Definition len (s : string) : nat := String.length s.

(** [s[:n]] *)
Definition slice_to (n : nat) (s : string) : string := String.substring 0 n s.

(** [s[:-1]] *)
Definition drop_last (s : string) : string :=
  String.substring 0 (String.length s - 1) s.

Definition newline : ascii := ascii_of_nat 10.
Definition carriage_return : ascii := ascii_of_nat 13.
Definition space : ascii := ascii_of_nat 32.

End PyStr.

(** ** Exceptions and results *)

(** The exceptions the routine meets. An [AttributeError] comes from the
    client library only, and its text is the library's: it is not kept in
    the exception but is a parameter of [exn_str]. *)
Inductive exn :=
| KeyError (key : string)
| TypeError (msg : string)
| ValueError (msg : string)
| AttributeError
| OtherPageSaveError (msg : string)
| NoPage (title : string).

Inductive result (A : Type) :=
| Ok (a : A)
| Raise (e : exn).
Arguments Ok {A} a.
Arguments Raise {A} e.

Definition rbind {A B} (r : result A) (k : A -> result B) : result B :=
  match r with
  | Ok a => k a
  | Raise e => Raise e
  end.

Notation "'let*' x ':=' e 'in' k" := (rbind e (fun x => k))
  (at level 10, x name, e at level 100, k at level 200).

Fixpoint mapM {A B} (f : A -> result B) (l : list A) : result (list B) :=
  match l with
  | [] => Ok []
  | a :: l' => let* b := f a in let* bs := mapM f l' in Ok (b :: bs)
  end.

(** A Python object that meets [+]: a [str] or an exception instance. *)
Inductive pyobj :=
| PyString (s : string)
| PyException (e : exn).

Definition dq : string := String (ascii_of_nat 34) "".
Definition sq : string := String (ascii_of_nat 39) "".

Definition exn_name (e : exn) : string :=
  match e with
  | KeyError _ => "KeyError"
  | TypeError _ => "TypeError"
  | ValueError _ => "ValueError"
  | AttributeError => "AttributeError"
  | OtherPageSaveError _ => "OtherPageSaveError"
  | NoPage _ => "NoPage"
  end.

(** [str(e)]; [attribute_text] is the text the client library gives its
    [AttributeError]. *)
Definition exn_str (attribute_text : string) (e : exn) : string :=
  match e with
  | KeyError k => sq +:+ k +:+ sq
  | TypeError m | ValueError m | OtherPageSaveError m => m
  | AttributeError => attribute_text
  | NoPage t => t
  end.

(** [a + b], also [a += b]: [str.__add__] accepts a [str] only. *)
Definition py_add (a b : pyobj) : result string :=
  match a, b with
  | PyString x, PyString y => Ok (x +:+ y)
  | PyString _, PyException e =>
      Raise (TypeError ("can only concatenate str (not " +:+ dq +:+ exn_name e
                        +:+ dq +:+ ") to str"))
  | PyException _, _ =>
      Raise (TypeError "unsupported operand type(s) for +")
  end.

(** ** The artwork record (spec, section 3)

    [accession_number] is the one key the routine expects to be possibly
    missing; [images] is missing, null or empty ([None]) or holds the
    print image. *)

Record creator := { description : option string }.

Record image := { img_url : string }.
Record image_set := { print : image }.

Record ArtworkRecord := {
  accession_number : option string;
  title : string;
  url : string;
  creation_date_earliest : option Z;
  creation_date_latest : option Z;
  creators : list creator;
  share_license_status : string;
  type : string;
  images : option image_set
}.

Record date := { year : Z; month : Z; day : Z }.

(** ** Claim objects of the client library *)

Inductive wbvalue :=
| ItemPage (qid : string)
| WbMonolingualText (text language : string)
| WbTime (y : Z) (m d : option Z)
| Str (s : string).

Global Instance wbvalue_eq_dec : EqDecision wbvalue.
Proof. solve_decision. Defined.

(** The claim objects the routine allocates, by the name of the variable
    that holds them. Qualifiers and sources are attached by reference, so a
    target set later is seen through every claim that holds the object. *)
Inductive cref :=
| instance_prop | institution_prop | title_prop | accession_number_prop
| accession_qual_prop | copyright_prop | determination_qual | url_prop
| url_qual | retrieved_qual | license_prop | type_prop | created_prop
| image_prop1 | image_prop2 | image_prop3 | author_string_prop
| commons_prop | author_string_qual | image_url_qual | format_qual
| title_qual | license_qual | operator_qual.

Global Instance cref_eq_dec : EqDecision cref.
Proof. solve_decision. Defined.

Record Claim := {
  pid : string;
  target : option wbvalue;
  qualifiers : list cref;
  sources : list (list cref)
}.

Definition heap := cref -> Claim.

(** [pywikibot.Claim(repo, pid)] *)
Definition new_claim (p : string) : Claim :=
  {| pid := p; target := None; qualifiers := []; sources := [] |}.

Definition setTarget (c : cref) (v : wbvalue) (h : heap) : heap :=
  <[c := {| pid := pid (h c); target := Some v;
            qualifiers := qualifiers (h c); sources := sources (h c) |}]> h.

Definition addQualifier (c q : cref) (h : heap) : heap :=
  <[c := {| pid := pid (h c); target := target (h c);
            qualifiers := qualifiers (h c) ++ [q];
            sources := sources (h c) |}]> h.

Definition addSources (c : cref) (qs : list cref) (h : heap) : heap :=
  <[c := {| pid := pid (h c); target := target (h c);
            qualifiers := qualifiers (h c);
            sources := sources (h c) ++ [qs] |}]> h.

(** The serialised form of a claim. *)
Record snak := { snak_property : string; snak_datavalue : wbvalue }.

Global Instance snak_eq_dec : EqDecision snak.
Proof. solve_decision. Defined.

Record claim_json := {
  cj_id : option string;
  mainsnak : snak;
  cj_qualifiers : list snak;
  cj_references : list (list snak)
}.

Global Instance claim_json_eq_dec : EqDecision claim_json.
Proof. solve_decision. Defined.

(** Modelled from the spec: serialising a claim object whose target was
    never set fails on the missing value with an [AttributeError] (the
    failure the routine catches around the Commons claim, spec sections 4.3
    and 7); the library code is not part of the repository. *)
Definition snak_of (h : heap) (c : cref) : result snak :=
  match target (h c) with
  | Some v => Ok {| snak_property := pid (h c); snak_datavalue := v |}
  | None => Raise AttributeError
  end.

(** [claim.toJSON()] *)
Definition toJSON (h : heap) (c : cref) : result claim_json :=
  let* ms := snak_of h c in
  let* qs := mapM (snak_of h) (qualifiers (h c)) in
  let* rs := mapM (mapM (snak_of h)) (sources (h c)) in
  Ok {| cj_id := None; mainsnak := ms; cj_qualifiers := qs;
        cj_references := rs |}.

(** ** The statement builder (lines 128 to 401 of the routine) *)

(** Values of the [entities['type']] table: an identifier or a nested
    dictionary. *)
Inductive entry :=
| EStr (s : string)
| EDict (d : list (string * string)).

Definition entities_type : gmap string entry :=
  list_to_map [
    ("Amulets", EStr "Q131557");
    ("Apparatus", EStr "Q39546");
    ("Arms and Armor", EStr "Q598227");
    ("Basketry", EStr "Q201097");
    ("Book Binding", EStr "Q1125338");
    ("Bound Volume", EStr "Q571");
    ("Calligraphy", EStr "Q22669850");
    ("Carpet", EStr "Q163446");
    ("Ceramic", EStr "Q13464614");
    ("Coins", EStr "Q41207");
    ("Cosmetic Objects", EStr "Q223557");
    ("Drawing", EStr "Q93184");
    ("Embroidery", EStr "Q18281");
    ("Enamel", EStr "Q79496108");
    ("Forgery", EStr "Q29541662");
    ("Funerary Equipment", EStr "Q79497835");
    ("Furniture and woodwork", EStr "Q60734095");
    ("Garment", EStr "Q11460");
    ("Glass", EStr "Q13180610");
    ("Glyptic", EDict [("P2079", "Q929254")]);
    ("Illumination", EStr "Q8362");
    ("Implements", EStr "Q39546");
    ("Inlays", EDict [("P2079", "Q1281067")]);
    ("Ivory", EDict [("P186", "Q82001")]);
    ("Jade", EStr "Q60733799");
    ("Jewelry", EStr "Q161439");
    ("Knitting", EStr "Q29048022");
    ("Lace", EStr "Q231250");
    ("Lacquer", EStr "Q368972");
    ("Lamp", EStr "Q368972");
    ("Leather", EStr "Q79504355");
    ("Linoleum Block", EStr "Q22060043");
    ("Lithographic Stone", EStr "");
    ("Manuscript", EStr "Q87167");
    ("Metalwork", EStr "Q29382731");
    ("Miniature", EStr "Q282129");
    ("Miscellaneous", EStr "");
    ("Mixed Media", EDict [("P136", "Q1902763")]);
    ("Monotype", EStr "Q22669635");
    ("Mosaic", EStr "Q133067");
    ("Musical Instrument", EStr "Q34379");
    ("Netsuke", EStr "Q543901");
    ("Painting", EStr "Q3305213");
    ("Photograph", EStr "Q125191");
    ("Plaque", EStr "Q4364339");
    ("Plate", EStr "Q57216");
    ("Portfolio", EStr "Q79509036");
    ("Portrait Miniature", EStr "Q282129");
    ("Print", EStr "Q11060274");
    ("Relief", EStr "Q11060274");
    ("Rock crystal", EDict [("P186", "Q2050687")]);
    ("Sampler", EStr "Q1513987");
    ("Scarabs", EStr "Q2442735");
    ("Sculpture", EStr "Q860861");
    ("Seals", EStr "Q2474386");
    ("Silver", EDict [("P186", "Q1090")]);
    ("Spindle Whorl", EStr "Q2474386");
    ("Stone", EDict [("P186", "Q22731")]);
    ("Tapestry", EStr "Q184296");
    ("Textile", EStr "Q28823");
    ("Time-based Media", EDict [("P136", "Q57206278")]);
    ("Tool", EStr "Q39546");
    ("Velvet", EDict [("P186", "Q243519")]);
    ("Vessels", EStr "Q987767");
    ("Wood", EDict [("P186", "Q287")]);
    ("Woodblock", EStr "Q28913685")
  ].

(** The claim objects as allocated at the top of the routine. *)
Definition init_heap : heap := fun c =>
  new_claim
    match c with
    | instance_prop => "P31"
    | institution_prop => "P195"
    | title_prop => "P1476"
    | accession_number_prop => "P217"
    | accession_qual_prop => "P195"
    | copyright_prop => "P6216"
    | determination_qual => "P459"
    | url_prop => "P973"
    | url_qual => "P854"
    | retrieved_qual => "P813"
    | license_prop => "P275"
    | type_prop => "P31"
    | created_prop => "P571"
    | image_prop1 | image_prop2 | image_prop3 => "P18"
    | author_string_prop => "P2093"
    | commons_prop => "P4765"
    | author_string_qual => "P2093"
    | image_url_qual => "P2699"
    | format_qual => "P2701"
    | title_qual => "P1476"
    | license_qual => "P275"
    | operator_qual => "P137"
    end.

(** Truth value of [author['description']]. *)
Definition truthy_str (o : option string) : bool :=
  match o with
  | Some (String _ _) => true
  | _ => false
  end.

(** Truth value of a nullable integer. *)
Definition truthy_int (o : option Z) : bool :=
  match o with
  | Some z => negb (z =? 0)%Z
  | None => false
  end.

(** Lines 273 to 281: the author string. *)
Definition author_loop (authors : list creator) (author_target : string) : string :=
  fold_left
    (fun author_target author =>
       if truthy_str (description author)
       then author_target +:+ " "
            +:+ PyStr.replace PyStr.newline PyStr.space
                  (default "" (description author))
            +:+ ";"
       else author_target)
    authors author_target.

Definition author_string (authors : list creator) : string :=
  let author_target := "unknown artist" in
  let author_target :=
    if (0 <? length authors)%nat
    then PyStr.lstrip (PyStr.drop_last (author_loop authors ""))
    else author_target in
  if (PyStr.len author_target =? 0)%nat then "unknown artist" else author_target.

(** [pywikibot.WbMonolingualText(text, language)]: the client library
    refuses an empty text and an empty language with a [ValueError]. *)
Definition pywikibot_WbMonolingualText (text language : string)
  : result wbvalue :=
  if decide (text = "" \/ language = "")
  then Raise (ValueError "text and language cannot be empty")
  else Ok (WbMonolingualText text language).

(** Line 242: the title as the routine uses it. *)
Definition clean_title (t : string) : string :=
  PyStr.replace PyStr.carriage_return PyStr.space
    (PyStr.replace PyStr.newline PyStr.space
       (PyStr.lstrip (PyStr.rstrip t))).

(** Lines 386 to 389. *)
Definition make_label (title : string) : string :=
  if (250 <? PyStr.len title)%nat then PyStr.slice_to 250 title else title.

(** Lines 391 to 396. *)
Definition make_description (accession_number ty author_target : string) : string :=
  let description :=
    "(" +:+ accession_number +:+ ") " +:+ PyStr.lower ty +:+ " by "
    +:+ author_target in
  if (250 <? PyStr.len description)%nat
  then PyStr.slice_to 250 description else description.

(** The [data] dictionary handed to the create-entity call. *)
Record entity_data := {
  d_labels : list (string * string);
  d_descriptions : list (string * string);
  d_claims : list claim_json
}.

(** What the routine returns: [return output], [return None] or
    [return output, item_return]. *)
Inductive sync_return :=
| ReturnOutput (output : string)
| ReturnNone
| ReturnPair (output : string) (item_return : option string).

(** The local variables that are live after line 401. *)
Record built := {
  b_heap : heap;
  b_claims : list cref;
  b_accession_number : string;
  b_title : string;
  b_author_target : string;
  b_label : string;
  b_description : string;
  b_newitem : entity_data
}.

Definition provenance : list cref := [url_qual; retrieved_qual].

Definition build (now : date) (artwork : ArtworkRecord)
  : result (sync_return + built) :=
  let output := "" in
  let h := init_heap in
  let h := addSources instance_prop provenance h in
  let h := addSources institution_prop provenance h in
  let h := addSources accession_number_prop provenance h in
  let h := addSources title_prop provenance h in
  let h := addSources url_prop provenance h in
  let h := addSources copyright_prop provenance h in
  let h := addSources license_prop provenance h in
  let h := addSources type_prop provenance h in
  let h := addSources created_prop provenance h in
  let h := addSources image_prop1 provenance h in
  let h := addSources image_prop2 provenance h in
  let h := addSources image_prop3 provenance h in
  let h := addSources author_string_prop provenance h in
  let h := addQualifier commons_prop author_string_qual h in
  let h := addQualifier commons_prop title_qual h in
  let h := addQualifier commons_prop format_qual h in
  let h := addQualifier commons_prop license_qual h in
  let h := addQualifier commons_prop operator_qual h in
  let h := addQualifier commons_prop image_url_qual h in
  let claims : list cref := [] in
  let institution_target := ItemPage "Q657415" in
  let h := setTarget institution_prop institution_target h in
  let claims := claims ++ [institution_prop] in
  match accession_number artwork with
  | None =>
      (* except KeyError as e: output += e; return output *)
      let e := KeyError "accession_number" in
      let* output := py_add (PyString output) (PyException e) in
      Ok (inl (ReturnOutput output))
  | Some accession_number =>
      let h := setTarget accession_number_prop (Str accession_number) h in
      let h := setTarget accession_qual_prop institution_target h in
      let h := addQualifier accession_number_prop accession_qual_prop h in
      let claims := claims ++ [accession_number_prop] in
      let h := setTarget url_qual (Str (url artwork)) h in
      let retrieved_qual_target :=
        WbTime (year now) (Some (month now)) (Some (day now)) in
      let h := setTarget retrieved_qual retrieved_qual_target h in
      let title := clean_title (title artwork) in
      let instance_target := ItemPage "Q18593264" in
      let h := setTarget instance_prop instance_target h in
      let claims := claims ++ [instance_prop] in
      let* title_target := pywikibot_WbMonolingualText title "en" in
      let h := setTarget title_prop title_target h in
      let claims := claims ++ [title_prop] in
      let url_target := Str (url artwork) in
      let h := setTarget url_prop url_target h in
      let claims := claims ++ [url_prop] in
      let '(h, claims) :=
        if decide (creation_date_earliest artwork = creation_date_latest artwork)
        then
          match creation_date_earliest artwork with
          | Some y =>
              if truthy_int (Some y)
              then (setTarget created_prop (WbTime y None None) h,
                    claims ++ [created_prop])
              else (h, claims)
          | None => (h, claims)
          end
        else (h, claims) in
      let author_target := author_string (creators artwork) in
      let h :=
        if decide (share_license_status artwork = "Copyrighted")
        then setTarget copyright_prop (ItemPage "Q50423863") h else h in
      let h :=
        if decide (share_license_status artwork = "CC0")
        then setTarget copyright_prop (ItemPage "Q19652") h else h in
      let determination_target := ItemPage "Q61848113" in
      let h := setTarget determination_qual determination_target h in
      let h := addQualifier copyright_prop determination_qual h in
      let claims :=
        if decide (share_license_status artwork = "Copyrighted"
                   \/ share_license_status artwork = "CC0")
        then claims ++ [copyright_prop] else claims in
      (* entities['type'][artwork['type']] *)
      let* e :=
        match entities_type !! type artwork with
        | Some e => Ok e
        | None => Raise (KeyError (type artwork))
        end in
      let '(h, claims) :=
        match e with
        | EStr s =>
            if decide (s <> "")
            then (setTarget type_prop (ItemPage s) h, claims ++ [type_prop])
            else (h, claims)
        | EDict _ => (h, claims)
        end in
      let h :=
        if decide (share_license_status artwork = "CC0")
        then
          match images artwork with
          | Some imgs =>
              let h := setTarget commons_prop (Str (img_url (print imgs))) h in
              let h := setTarget image_url_qual url_target h in
              let h := setTarget author_string_qual (Str author_target) h in
              let h := setTarget format_qual (ItemPage "Q2195") h in
              let h := setTarget title_qual title_target h in
              let h := setTarget license_qual (ItemPage "Q6938433") h in
              setTarget operator_qual institution_target h
          | None => h
          end
        else h in
      let label := make_label title in
      let description :=
        make_description accession_number (type artwork) author_target in
      let* claimlist := mapM (toJSON h) claims in
      let data :=
        {| d_labels := [("en", label)];
           d_descriptions :=
             [("en", "artwork in the Cleveland Museum of Art" +:+ sq
                     +:+ "s collection (" +:+ accession_number +:+ ")")];
           d_claims := claimlist |} in
      Ok (inr {| b_heap := h; b_claims := claims;
                 b_accession_number := accession_number;
                 b_title := title;
                 b_author_target := author_target;
                 b_label := label; b_description := description;
                 b_newitem := data |})
  end.

Definition relief_1916 : ArtworkRecord :=
  {| accession_number := Some "1916.1";
     title := "Relief of a Woman";
     url := "https://clevelandart.org/art/1916.1";
     creation_date_earliest := Some (-100)%Z;
     creation_date_latest := Some 100%Z;
     creators := [];
     share_license_status := "CC0";
     type := "Relief";
     images := Some {| print := {| img_url := "https://openaccess-cdn.clevelandart.org/1916.1/1916.1_print.jpg" |} |} |}.

Definition today : date := {| year := 2020; month := 3; day := 14 |}.

(** ** The remote knowledge base and the lookup service *)

(** A remote item (spec, section 3): labels and descriptions per language
    and claims per property. *)
Record entity := {
  labels : gmap string string;
  descriptions : gmap string string;
  claims : gmap string (list claim_json)
}.

(** The write interface (spec, section 6). *)
Inductive write_call :=
| editEntity (data : entity_data) (summary : string)
| editLabels (item : string) (new_labels : list (string * string)) (summary : string)
| editDescriptions (item : string) (new_descriptions : list (string * string))
    (summary : string)
| addClaim (item : string) (claim : claim_json) (summary : string).

(** The knowledge base: its items by Qid, the counter it draws fresh
    identifiers from, and the write calls it has received. *)
Record remote := {
  store : gmap string entity;
  next_id : N;
  log : list write_call
}.

(** What the routine cannot control: the text the query endpoint answers
    with, [json.loads] (here [None] when it raises, else the [Qid] values of
    [results.bindings]), whether the knowledge base rejects the creation
    of an item, and the text the client library gives the [AttributeError]
    of a claim without target. *)
Record service := {
  requests_get : string -> string;
  json_loads : string -> option (list string);
  save_conflict : option string;
  attribute_error_text : string
}.

(** The routine's mutable state: the knowledge base and the two local
    variables that are assigned inside [try] blocks. *)
Record state := {
  world : remote;
  output : string;
  item_return : option string
}.

Definition M (A : Type) : Type := state -> result A * state.

Definition ret {A} (a : A) : M A := fun s => (Ok a, s).

Definition bind {A B} (m : M A) (k : A -> M B) : M B := fun s =>
  match m s with
  | (Ok a, s') => k a s'
  | (Raise e, s') => (Raise e, s')
  end.

Definition lift {A} (x : result A) : M A := fun s => (x, s).

Notation "x <- m ;; k" := (bind m (fun x => k))
  (at level 100, m at next level, right associativity).
Notation "m ;; k" := (bind m (fun _ => k))
  (at level 100, right associativity).

(** [try: m except E as e: handler e]; [handler e = None] when the
    [except] clause does not match [e]. *)
Definition try_except {A} (m : M A) (handler : exn -> option (M A)) : M A :=
  fun s =>
    match m s with
    | (Ok a, s') => (Ok a, s')
    | (Raise e, s') =>
        match handler e with
        | Some k => k s'
        | None => (Raise e, s')
        end
    end.

Fixpoint for_each {A} (l : list A) (body : A -> M unit) : M unit :=
  match l with
  | [] => ret tt
  | a :: l' => body a ;; for_each l' body
  end.

(** [output += text] *)
Definition output_add (text : string) : M unit := fun s =>
  (Ok tt, {| world := world s; output := output s +:+ text;
             item_return := item_return s |}).

Definition set_item_return (v : string) : M unit := fun s =>
  (Ok tt, {| world := world s; output := output s; item_return := Some v |}).

Definition get_output : M string := fun s => (Ok (output s), s).
Definition get_item_return : M (option string) := fun s => (Ok (item_return s), s).

Definition with_world (f : remote -> remote) : M unit := fun s =>
  (Ok tt, {| world := f (world s); output := output s;
             item_return := item_return s |}).

Definition record_call (c : write_call) (r : remote) : remote :=
  {| store := store r; next_id := next_id r; log := log r ++ [c] |}.

Definition set_terms (new : list (string * string)) (m : gmap string string)
  : gmap string string :=
  fold_right (fun kv m => <[kv.1 := kv.2]> m) m new.

Definition insert_claim (c : claim_json) (m : gmap string (list claim_json))
  : gmap string (list claim_json) :=
  <[snak_property (mainsnak c) := default [] (m !! snak_property (mainsnak c)) ++ [c]]> m.

Definition with_id (i : string) (c : claim_json) : claim_json :=
  {| cj_id := Some i; mainsnak := mainsnak c; cj_qualifiers := cj_qualifiers c;
     cj_references := cj_references c |}.

(** [str(item)] for the item page of [qid]. *)
Definition str_item (qid : string) : string := "[[wikidata:" +:+ qid +:+ "]]".

(** Modelled from the spec: the client's [item.get()] returns the stored
    labels, descriptions and claims of the item and fails when there is no
    such item (section 3, RemoteItem); the client library is not part of
    the repository. *)
Definition item_get (qid : string) : M entity := fun s =>
  match store (world s) !! qid with
  | Some e => (Ok e, s)
  | None => (Raise (NoPage (str_item qid)), s)
  end.

(** Modelled from the spec: a label edit overwrites the item's text in the
    given languages (section 4.3) and changes nothing else. *)
Definition do_editLabels (qid : string) (new : list (string * string))
    (summary : string) (r : remote) : remote :=
  {| store := alter (fun e => {| labels := set_terms new (labels e);
                                 descriptions := descriptions e;
                                 claims := claims e |}) qid (store r);
     next_id := next_id r;
     log := log r ++ [editLabels qid new summary] |}.

Definition item_editLabels (qid : string) (new : list (string * string))
    (summary : string) : M unit :=
  with_world (do_editLabels qid new summary).

(** Modelled from the spec: a description edit overwrites the item's
    description in the given languages (section 4.3). *)
Definition do_editDescriptions (qid : string) (new : list (string * string))
    (summary : string) (r : remote) : remote :=
  {| store := alter (fun e => {| labels := labels e;
                                 descriptions := set_terms new (descriptions e);
                                 claims := claims e |}) qid (store r);
     next_id := next_id r;
     log := log r ++ [editDescriptions qid new summary] |}.

Definition item_editDescriptions (qid : string) (new : list (string * string))
    (summary : string) : M unit :=
  with_world (do_editDescriptions qid new summary).

(** Modelled from the spec: adding a claim appends it, under a fresh claim
    identifier, to the item's claims of that property (sections 3 and 4.3);
    existing claims are left as they are. *)
Definition do_addClaim (qid : string) (j : claim_json) (summary : string)
    (r : remote) : remote :=
  let stored := with_id (qid +:+ "$" +:+ pretty (next_id r)) j in
  {| store := alter (fun e => {| labels := labels e;
                                 descriptions := descriptions e;
                                 claims := insert_claim stored (claims e) |})
                qid (store r);
     next_id := N.succ (next_id r);
     log := log r ++ [addClaim qid j summary] |}.

(** [item.addClaim(claim, summary=...)]: the claim is serialised, which
    fails when a target is unset, before anything is sent. *)
Definition item_addClaim (h : heap) (qid : string) (c : cref) (summary : string)
  : M unit :=
  j <- lift (toJSON h c) ;;
  with_world (do_addClaim qid j summary).

Definition entity_of_data (qid : string) (d : entity_data) : entity :=
  {| labels := set_terms (d_labels d) ∅;
     descriptions := set_terms (d_descriptions d) ∅;
     claims := fold_left (fun m c => insert_claim c m)
                 (imap (fun k c => with_id (qid +:+ "$" +:+ pretty k) c)
                    (d_claims d))
                 ∅ |}.

(** Modelled from the spec: an accepted create-entity call stores the data
    as a new item under a fresh Qid (section 4.3). *)
Definition do_editEntity (qid : string) (data : entity_data) (summary : string)
    (r : remote) : remote :=
  {| store := <[qid := entity_of_data qid data]> (store r);
     next_id := N.succ (next_id r);
     log := log r ++ [editEntity data summary] |}.

(** Modelled from the spec: the create-entity call of a new item page
    either is rejected with a page-save error (section 7, CreateConflict)
    or creates the item, whose Qid the item page then carries. *)
Definition item_editEntity (svc : service) (data : entity_data) (summary : string)
  : M string := fun s =>
  let r := world s in
  match save_conflict svc with
  | Some msg =>
      (Raise (OtherPageSaveError msg),
       {| world := record_call (editEntity data summary) r;
          output := output s; item_return := item_return s |})
  | None =>
      let qid := "Q" +:+ pretty (next_id r) in
      (Ok qid,
       {| world := do_editEntity qid data summary r;
          output := output s; item_return := item_return s |})
  end.

(** ** Lookup, creation and reconciliation (lines 402 to 497) *)

Definition query_url (accession_number : string) : string :=
  "https://query.wikidata.org/sparql?query=SELECT%20DISTINCT%20%3FQid%20WHERE%20%7B%0A%20%20%3Fitem%20p%3AP217%20%3Fs%20.%0A%20%20%3Fs%20ps%3AP217%20"
  +:+ dq +:+ accession_number +:+ dq
  +:+ ".%0A%20%20%3Fs%20pq%3AP195%20wd%3AQ657415%20.%0A%20%20BIND%28SUBSTR%28STR%28%3Fitem%29%2C%2032%20%29%20AS%20%3FQid%29%0A%7D &format=json".

Definition import_summary (accession_number : string) : string :=
  "Importing Cleveland Museum of Art collections to Wikidata: accession number "
  +:+ accession_number +:+ ".".

Definition sync_summary (what accession_number : string) : string :=
  "Synchronizing Wikidata " +:+ what
  +:+ " with Cleveland Museum of Art data: accession number "
  +:+ accession_number +:+ ".".

(** Lines 470 to 475: the main snaks of the item's claims, each once. *)
Definition collect_clms (m : gmap string (list claim_json)) : list snak :=
  fold_left
    (fun clms pl =>
       fold_left
         (fun clms clm =>
            if decide (mainsnak clm ∈ clms) then clms
            else clms ++ [mainsnak clm])
         pl.2 clms)
    (map_to_list m) [].

(** Lines 417 to 438: no item with this accession number. *)
Definition create (svc : service) (b : built) : M unit :=
  let accession_number := b_accession_number b in
  try_except
    (item <- item_editEntity svc (b_newitem b) (import_summary accession_number) ;;
     (* time.sleep(10) *)
     try_except
       (item_addClaim (b_heap b) item commons_prop
          (sync_summary "statement" accession_number) ;;
        let message :=
          "Uploaded: " +:+ accession_number +:+ " Item: " +:+ str_item item in
        output_add message ;;
        set_item_return (str_item item))
       (fun e =>
          match e with
          | AttributeError =>
              Some
                (let message :=
                   "Failed to upload: " +:+ accession_number +:+ "  "
                   +:+ exn_str (attribute_error_text svc) e in
                 let message_explanation :=
                   PyStr.nl +:+ PyStr.tab +:+ "Most likely " +:+ accession_number
                   +:+ " has a null image response field in artwork JSON" in
                 output_add (message +:+ message_explanation))
          | _ => None
          end))
    (fun e =>
       match e with
       | OtherPageSaveError _ =>
           Some
             (let message :=
                "Failed to upload: " +:+ accession_number +:+ "  "
                +:+ exn_str (attribute_error_text svc) e in
              output_add message)
       | _ => None
       end).

(** [d['en']] on a dictionary of texts. *)
Definition subscript (d : gmap string string) (k : string) : result string :=
  match d !! k with
  | Some v => Ok v
  | None => Raise (KeyError k)
  end.

Definition sync_label (b : built) (item : string) : M unit :=
  let accession_number := b_accession_number b in
  let label := b_label b in
  let edit :=
    item_editLabels item [("en", label)] (sync_summary "label" accession_number) ;;
    output_add (PyStr.nl +:+ PyStr.tab +:+ "Synchronizing changes to label for "
                +:+ str_item item +:+ ": " +:+ label) in
  try_except
    (e <- item_get item ;;
     current <- lift (subscript (labels e) "en") ;;
     if decide (current <> label) then edit else ret tt)
    (fun _ =>
       Some (e <- item_get item ;;
             if negb (truthy_str (labels e !! "en")) then edit else ret tt)).

Definition sync_description (b : built) (item : string) : M unit :=
  let accession_number := b_accession_number b in
  let label := b_label b in
  let description := b_description b in
  let edit :=
    item_editDescriptions item [("en", description)]
      (sync_summary "description" accession_number) ;;
    output_add (PyStr.nl +:+ PyStr.tab
                +:+ "Synchronizing changes to description for "
                +:+ str_item item +:+ ": " +:+ label) in
  try_except
    (e <- item_get item ;;
     current <- lift (subscript (descriptions e) "en") ;;
     if decide (current <> description) then edit else ret tt)
    (fun _ =>
       Some (e <- item_get item ;;
             if negb (truthy_str (descriptions e !! "en")) then edit else ret tt)).

(** Lines 477 to 487. *)
Definition sync_commons (svc : service) (artwork : ArtworkRecord) (b : built)
    (item : string) : M unit :=
  let accession_number := b_accession_number b in
  let label := b_label b in
  if decide (share_license_status artwork = "CC0") then
    match images artwork with
    | Some _ =>
        e <- item_get item ;;
        if decide (claims e !! "P18" = None) then
          e <- item_get item ;;
          if decide (claims e !! "P4765" = None) then
            try_except
              (item_addClaim (b_heap b) item commons_prop
                 (sync_summary "statement" accession_number) ;;
               output_add (PyStr.nl +:+ PyStr.tab +:+ "Synchronizing missing "
                           +:+ sq +:+ "P4765" +:+ sq +:+ " claim for "
                           +:+ str_item item +:+ ": " +:+ label))
              (fun e =>
                 match e with
                 | AttributeError =>
                     Some (output_add
                             (PyStr.nl +:+ PyStr.tab
                              +:+ "Failed to synchronize claim "
                              +:+ exn_str (attribute_error_text svc) e))
                 | _ => None
                 end)
          else ret tt
        else ret tt
    | None => ret tt
    end
  else ret tt.

(** Lines 489 to 495. *)
Definition sync_statements (b : built) (item : string) (clms : list snak)
  : M unit :=
  let accession_number := b_accession_number b in
  let label := b_label b in
  for_each (b_claims b) (fun stmnt =>
    stmnt_compare <- lift (toJSON (b_heap b) stmnt) ;;
    if decide (mainsnak stmnt_compare ∈ clms) then ret tt
    else
      item_addClaim (b_heap b) item stmnt
        (sync_summary "statement" accession_number) ;;
      j <- lift (toJSON (b_heap b) stmnt) ;;
      output_add (PyStr.nl +:+ PyStr.tab +:+ "Synchronizing missing " +:+ sq
                  +:+ snak_property (mainsnak j) +:+ sq +:+ " claim for "
                  +:+ str_item item +:+ ": " +:+ label)).

(** Lines 442 to 495: one item found with this accession number. *)
Definition reconcile (svc : service) (artwork : ArtworkRecord) (b : built)
    (item : string) : M unit :=
  let accession_number := b_accession_number b in
  _ <- item_get item ;;
  output_add ("syncing: " +:+ accession_number +:+ " label: " +:+ str_item item) ;;
  set_item_return (str_item item) ;;
  sync_label b item ;;
  sync_description b item ;;
  e <- item_get item ;;
  let clms := collect_clms (claims e) in
  sync_commons svc artwork b item ;;
  sync_statements b item clms.

Definition sync_items (svc : service) (artwork : ArtworkRecord) (b : built)
  : M sync_return :=
  let getcheck := requests_get svc (query_url (b_accession_number b)) in
  match json_loads svc getcheck with
  | None => ret ReturnNone
  | Some bindings =>
      (if decide (length bindings = 0) then create svc b else ret tt) ;;
      (if decide (length bindings = 1)
       then reconcile svc artwork b (default "" (head bindings))
       else ret tt) ;;
      output <- get_output ;;
      item_return <- get_item_return ;;
      ret (ReturnPair output item_return)
  end.

(** The whole routine on the knowledge base [r]: its result or the
    exception it raises, and the knowledge base it leaves. *)
Definition _sync_wikidata_artwork (svc : service) (now : date)
    (artwork : ArtworkRecord) (r : remote) : result sync_return * remote :=
  match build now artwork with
  | Raise e => (Raise e, r)
  | Ok (inl early) => (Ok early, r)
  | Ok (inr b) =>
      let '(res, s) :=
        sync_items svc artwork b
          {| world := r; output := ""; item_return := None |} in
      (res, world s)
  end.

(** The write calls a run adds to the log. *)
Definition writes_of (svc : service) (now : date) (artwork : ArtworkRecord)
    (r : remote) : list write_call :=
  drop (length (log r)) (log (_sync_wikidata_artwork svc now artwork r).2).

(** * Vocabulary of the properties *)

(** ** What a build holds *)

(** The statement set of a build: the serialised claims of [claims]. *)
Definition statement_set (b : built) : list claim_json := d_claims (b_newitem b).

(** The number of claims of property [p] among [l]. *)
Definition count_property (p : string) (l : list claim_json) : nat :=
  length (filter (fun j => snak_property (mainsnak j) = p) l).

(** The description the routine writes into the data of a new item. *)
Definition fixed_description (acc : string) : string :=
  "artwork in the Cleveland Museum of Art" +:+ sq +:+ "s collection ("
  +:+ acc +:+ ")".

(** The claim objects the routine appends to [claims], in order. *)
Definition claims_of (a : ArtworkRecord) (e : entry) : list cref :=
  [institution_prop; accession_number_prop; instance_prop; title_prop; url_prop]
  ++ (if decide (creation_date_earliest a = creation_date_latest a)
      then if truthy_int (creation_date_earliest a) then [created_prop] else []
      else [])
  ++ (if decide (share_license_status a = "Copyrighted"
                 \/ share_license_status a = "CC0")
      then [copyright_prop] else [])
  ++ (match e with
      | EStr s => if decide (s <> "") then [type_prop] else []
      | EDict _ => []
      end).

(** The main snak each of these claim objects is serialised with. *)
Definition expected_mainsnak (a : ArtworkRecord) (acc : string) (e : entry)
    (c : cref) : snak :=
  {| snak_property := pid (init_heap c);
     snak_datavalue :=
       match c with
       | institution_prop => ItemPage "Q657415"
       | accession_number_prop => Str acc
       | instance_prop => ItemPage "Q18593264"
       | title_prop => WbMonolingualText (clean_title (title a)) "en"
       | url_prop => Str (url a)
       | created_prop =>
           WbTime (default 0%Z (creation_date_earliest a)) None None
       | copyright_prop =>
           if decide (share_license_status a = "CC0")
           then ItemPage "Q19652" else ItemPage "Q50423863"
       | type_prop =>
           match e with
           | EStr s => ItemPage s
           | EDict _ => ItemPage ""
           end
       | _ => Str ""
       end |}.

(** The Commons claim once its target and qualifiers are set. *)
Definition commons_json (a : ArtworkRecord) (im : image_set) : claim_json :=
  {| cj_id := None;
     mainsnak := {| snak_property := "P4765";
                    snak_datavalue := Str (img_url (print im)) |};
     cj_qualifiers :=
       [ {| snak_property := "P2093";
            snak_datavalue := Str (author_string (creators a)) |};
         {| snak_property := "P1476";
            snak_datavalue := WbMonolingualText (clean_title (title a)) "en" |};
         {| snak_property := "P2701"; snak_datavalue := ItemPage "Q2195" |};
         {| snak_property := "P275"; snak_datavalue := ItemPage "Q6938433" |};
         {| snak_property := "P137"; snak_datavalue := ItemPage "Q657415" |};
         {| snak_property := "P2699"; snak_datavalue := Str (url a) |} ];
     cj_references := [] |}.

(** The images the Commons claim is filled from: those of a CC0 record. *)
Definition commons_ready (a : ArtworkRecord) : option image_set :=
  if decide (share_license_status a = "CC0") then images a else None.

(** The exception the client library refuses an empty title with. *)
Definition empty_text : exn := ValueError "text and language cannot be empty".

(** The exception the serialisation of a claim without target raises. *)
Definition unset_target : exn := AttributeError.

(** ** The author string *)







(** ** Items and their claims *)

(** The item [q] of the knowledge base in state [s] is [e]. *)
Definition ent (s : state) (q : string) (e : entity) : Prop :=
  store (world s) !! q = Some e.

(** Some claim of [m] has the main snak [sn]. *)
Definition has_sig (m : gmap string (list claim_json)) (sn : snak) : Prop :=
  exists p l c, m !! p = Some l /\ c ∈ l /\ mainsnak c = sn.

(** [m'] has every claim of [m], in place, and possibly more. *)
Definition additive (m m' : gmap string (list claim_json)) : Prop :=
  forall p l, m !! p = Some l -> exists l', m' !! p = Some (l ++ l').

(** ** The state each step of the reconciliation leaves *)

Definition label_message (b : built) (q : string) : string :=
  PyStr.nl +:+ PyStr.tab +:+ "Synchronizing changes to label for "
  +:+ str_item q +:+ ": " +:+ b_label b.

Definition description_message (b : built) (q : string) : string :=
  PyStr.nl +:+ PyStr.tab +:+ "Synchronizing changes to description for "
  +:+ str_item q +:+ ": " +:+ b_label b.

Definition after_label (b : built) (q : string) (e : entity) (s : state) : state :=
  if decide (labels e !! "en" = Some (b_label b)) then s
  else {| world := do_editLabels q [("en", b_label b)]
                     (sync_summary "label" (b_accession_number b)) (world s);
          output := output s +:+ label_message b q;
          item_return := item_return s |}.

Definition after_description (b : built) (q : string) (e : entity) (s : state)
  : state :=
  if decide (descriptions e !! "en" = Some (b_description b)) then s
  else {| world := do_editDescriptions q [("en", b_description b)]
                     (sync_summary "description" (b_accession_number b))
                     (world s);
          output := output s +:+ description_message b q;
          item_return := item_return s |}.

Definition commons_message (b : built) (q : string) : string :=
  PyStr.nl +:+ PyStr.tab +:+ "Synchronizing missing " +:+ sq +:+ "P4765" +:+ sq
  +:+ " claim for " +:+ str_item q +:+ ": " +:+ b_label b.

Definition statement_message (b : built) (q : string) (j : claim_json) : string :=
  PyStr.nl +:+ PyStr.tab +:+ "Synchronizing missing " +:+ sq
  +:+ snak_property (mainsnak j) +:+ sq +:+ " claim for " +:+ str_item q
  +:+ ": " +:+ b_label b.

(** The Commons claim is due: a CC0 record with a print image, and an item
    with neither a P18 nor a P4765 claim. *)
Definition commons_due (a : ArtworkRecord) (e : entity) : option image_set :=
  match commons_ready a with
  | Some im =>
      if decide (claims e !! "P18" = None)
      then if decide (claims e !! "P4765" = None) then Some im else None
      else None
  | None => None
  end.

Definition after_commons (a : ArtworkRecord) (b : built) (q : string)
    (e : entity) (s : state) : state :=
  match commons_due a e with
  | Some im =>
      {| world := do_addClaim q (commons_json a im)
                    (sync_summary "statement" (b_accession_number b)) (world s);
         output := output s +:+ commons_message b q;
         item_return := item_return s |}
  | None => s
  end.

Definition after_statement (b : built) (q : string) (clms : list snak)
    (j : claim_json) (s : state) : state :=
  if decide (mainsnak j ∈ clms) then s
  else {| world := do_addClaim q j
                     (sync_summary "statement" (b_accession_number b)) (world s);
          output := output s +:+ statement_message b q j;
          item_return := item_return s |}.

Fixpoint after_statements (b : built) (q : string) (clms : list snak)
    (js : list claim_json) (s : state) : state :=
  match js with
  | [] => s
  | j :: js' => after_statements b q clms js' (after_statement b q clms j s)
  end.

(** ** The write calls of a reconciliation *)

Definition label_writes (b : built) (q : string) (e : entity) : list write_call :=
  if decide (labels e !! "en" = Some (b_label b)) then []
  else [editLabels q [("en", b_label b)]
          (sync_summary "label" (b_accession_number b))].

Definition description_writes (b : built) (q : string) (e : entity)
  : list write_call :=
  if decide (descriptions e !! "en" = Some (b_description b)) then []
  else [editDescriptions q [("en", b_description b)]
          (sync_summary "description" (b_accession_number b))].

Definition commons_writes (a : ArtworkRecord) (b : built) (q : string)
    (e : entity) : list write_call :=
  match commons_due a e with
  | Some im => [addClaim q (commons_json a im)
                  (sync_summary "statement" (b_accession_number b))]
  | None => []
  end.

Definition statement_writes (b : built) (q : string) (clms : list snak)
    (js : list claim_json) : list write_call :=
  map (fun j => addClaim q j (sync_summary "statement" (b_accession_number b)))
    (filter (fun j => mainsnak j ∉ clms) js).

Definition reconcile_writes (a : ArtworkRecord) (b : built) (q : string)
    (e : entity) : list write_call :=
  label_writes b q e ++ description_writes b q e ++ commons_writes a b q e
  ++ statement_writes b q (collect_clms (claims e)) (statement_set b).

Definition after_reconcile (a : ArtworkRecord) (b : built) (q : string)
    (e : entity) (s : state) : state :=
  let s :=
    {| world := world s;
       output := output s +:+ ("syncing: " +:+ b_accession_number b
                               +:+ " label: " +:+ str_item q);
       item_return := Some (str_item q) |} in
  after_statements b q (collect_clms (claims e)) (statement_set b)
    (after_commons a b q e (after_description b q e (after_label b q e s))).

(** An item is synchronised with a build when its English label and
    description are the computed ones, every main snak of the statement set
    is the main snak of one of its claims, and the Commons claim is not
    due. *)
Definition synced (a : ArtworkRecord) (b : built) (e : entity) : Prop :=
  labels e !! "en" = Some (b_label b)
  /\ descriptions e !! "en" = Some (b_description b)
  /\ (forall sn, sn ∈ map mainsnak (statement_set b) -> has_sig (claims e) sn)
  /\ (commons_ready a <> None ->
      claims e !! "P18" <> None \/ claims e !! "P4765" <> None).

(** ** The whole routine *)

Definition start (r : remote) : state :=
  {| world := r; output := ""; item_return := None |}.

Definition lookup_result (svc : service) (acc : string) : option (list string) :=
  json_loads svc (requests_get svc (query_url acc)).

(** The message of a creation whose Commons write failed; [text] is the
    text of the exception. *)
Definition upload_failed (acc text : string) : string :=
  ("Failed to upload: " +:+ acc +:+ "  " +:+ text)
  +:+ (PyStr.nl +:+ PyStr.tab +:+ "Most likely " +:+ acc
       +:+ " has a null image response field in artwork JSON").

Definition uploaded (acc qid : string) : string :=
  "Uploaded: " +:+ acc +:+ " Item: " +:+ str_item qid.

(** ** Records, services and knowledge bases used as examples *)

(** A service that answers every query with [text], which parses to
    [bindings], and accepts the creation of items. *)
Definition answering (text : string) (bindings : option (list string)) : service :=
  {| requests_get := fun _ => text;
     json_loads := fun t => if decide (t = text) then bindings else None;
     save_conflict := None;
     attribute_error_text :=
       sq +:+ "NoneType" +:+ sq +:+ " object has no attribute " +:+ sq
       +:+ "toWikibase" +:+ sq |}.

Definition padded_title : ArtworkRecord :=
  {| accession_number := Some "1916.1";
     title := " Relief of a Woman";
     url := "https://clevelandart.org/art/1916.1";
     creation_date_earliest := Some (-100)%Z;
     creation_date_latest := Some 100%Z;
     creators := [];
     share_license_status := "CC0";
     type := "Relief";
     images := None |}.

Definition year_zero : ArtworkRecord :=
  {| accession_number := Some "1916.1";
     title := "Relief of a Woman";
     url := "https://clevelandart.org/art/1916.1";
     creation_date_earliest := Some 0%Z;
     creation_date_latest := Some 0%Z;
     creators := [];
     share_license_status := "CC0";
     type := "Relief";
     images := None |}.

Definition poster : ArtworkRecord :=
  {| accession_number := Some "1916.1";
     title := "Relief of a Woman";
     url := "https://clevelandart.org/art/1916.1";
     creation_date_earliest := Some (-100)%Z;
     creation_date_latest := Some 100%Z;
     creators := [];
     share_license_status := "CC0";
     type := "Poster";
     images := None |}.

Definition no_accession : ArtworkRecord :=
  {| accession_number := None;
     title := "Relief of a Woman";
     url := "https://clevelandart.org/art/1916.1";
     creation_date_earliest := Some (-100)%Z;
     creation_date_latest := Some 100%Z;
     creators := [];
     share_license_status := "CC0";
     type := "Relief";
     images := None |}.

Definition no_match : service :=
  answering "{ results : { bindings : [ ] } }" (Some []).

Definition one_match : service :=
  answering "{ results : { bindings : [ { Qid : { value : Q42 } } ] } }"
    (Some ["Q42"]).

Definition unparsable : service :=
  answering "<html>429 Too Many Requests</html>" None.

Definition empty_remote : remote :=
  {| store := ∅; next_id := 1; log := [] |}.

Definition bare_item : entity :=
  {| labels := ∅; descriptions := ∅; claims := ∅ |}.

Definition remote_with_item : remote :=
  {| store := {[ "Q42" := bare_item ]}; next_id := 43; log := [] |}.

Definition relief_without_images : ArtworkRecord :=
  {| accession_number := Some "1916.1";
     title := "Relief of a Woman";
     url := "https://clevelandart.org/art/1916.1";
     creation_date_earliest := Some (-100)%Z;
     creation_date_latest := Some 100%Z;
     creators := [];
     share_license_status := "CC0";
     type := "Relief";
     images := None |}.

Definition next_day : date := {| year := 2020; month := 3; day := 15 |}.

(** * Vocabulary of the further properties *)

(** ** The serialised statements *)

(** The reference every claim of [claims] carries: the record's URL and
    the date of the run. *)
Definition provenance_json (now : date) (a : ArtworkRecord) : list snak :=
  [ {| snak_property := "P854"; snak_datavalue := Str (url a) |};
    {| snak_property := "P813";
       snak_datavalue :=
         WbTime (year now) (Some (month now)) (Some (day now)) |} ].

(** The qualifiers each claim object of [claims] is serialised with. *)
Definition expected_qualifiers (c : cref) : list snak :=
  match c with
  | accession_number_prop =>
      [ {| snak_property := "P195"; snak_datavalue := ItemPage "Q657415" |} ]
  | copyright_prop =>
      [ {| snak_property := "P459"; snak_datavalue := ItemPage "Q61848113" |} ]
  | _ => []
  end.

(** The serialised form of a claim object of [claims]. *)
Definition expected_json (now : date) (a : ArtworkRecord) (acc : string)
    (e : entry) (c : cref) : claim_json :=
  {| cj_id := None;
     mainsnak := expected_mainsnak a acc e c;
     cj_qualifiers := expected_qualifiers c;
     cj_references := [provenance_json now a] |}.

(** ** The claims a run adds *)

Global Instance entry_eq_dec : EqDecision entry.
Proof. solve_decision. Defined.

(** The main snaks of the claims that the write calls [ws] add. *)
Definition added_snaks (ws : list write_call) : list snak :=
  omap (fun w => match w with
                 | addClaim _ j _ => Some (mainsnak j)
                 | _ => None
                 end) ws.

Definition two_matches : service :=
  answering "{ results : { bindings : [ Q42, Q43 ] } }" (Some ["Q42"; "Q43"]).

Definition rejecting : service :=
  {| requests_get := requests_get no_match;
     json_loads := json_loads no_match;
     save_conflict := Some "Edit conflict";
     attribute_error_text := attribute_error_text no_match |}.

Definition french_item : entity :=
  {| labels := {[ "fr" := "Relief d'une femme" ]};
     descriptions := {[ "fr" := "relief" ]};
     claims := ∅ |}.

Definition remote_with_two_items : remote :=
  {| store := {[ "Q42" := french_item; "Q7" := bare_item ]};
     next_id := 43; log := [] |}.

(** ** The callers of the routine: [update_wikidata] and [batch_sync] *)

(** The exceptions of the callers: those of the routine and the one that
    indexing adds. *)
Inductive pyexn :=
| Raised (e : exn)
| IndexError (msg : string).

Inductive outcome (A : Type) :=
| Returns (a : A)
| Raises (e : pyexn).
Arguments Returns {A} a.
Arguments Raises {A} e.

Definition unpack_none : pyexn :=
  Raised (TypeError "cannot unpack non-iterable NoneType object").

(** [message, item = value] for what the routine returns: a pair unpacks
    into its components, [None] cannot be unpacked, and a string unpacks
    into its characters when it has exactly two. *)
Definition unpack2 (v : sync_return) : outcome (string * option string) :=
  match v with
  | ReturnPair message item => Returns (message, item)
  | ReturnNone => Raises unpack_none
  | ReturnOutput EmptyString =>
      Raises (Raised (ValueError
                        "not enough values to unpack (expected 2, got 0)"))
  | ReturnOutput (String _ EmptyString) =>
      Raises (Raised (ValueError
                        "not enough values to unpack (expected 2, got 1)"))
  | ReturnOutput (String c1 (String c2 EmptyString)) =>
      Returns (String c1 "", Some (String c2 ""))
  | ReturnOutput _ =>
      Raises (Raised (ValueError "too many values to unpack (expected 2)"))
  end.

(** Lines 55 to 60. *)
Definition update_wikidata (svc : service) (now : date)
    (artwork_json : ArtworkRecord) (r : remote)
  : outcome (string * option string) * remote :=
  match _sync_wikidata_artwork svc now artwork_json r with
  | (Ok v, r') => (unpack2 v, r')
  | (Raise e, r') => (Raises (Raised e), r')
  end.

(** [s.split(sep)] for a one-character separator. *)
Fixpoint split_on (sep : ascii) (s : string) : list string :=
  match s with
  | EmptyString => [EmptyString]
  | String c s' =>
      if Ascii.eqb c sep then EmptyString :: split_on sep s'
      else match split_on sep s' with
           | part :: parts => String c part :: parts
           | [] => [String c EmptyString]
           end
  end.

(** A character that [\w] matches: a letter, a digit or another numeric
    character, or the underscore. *)
Definition is_word (c : ascii) : bool :=
  let n := nat_of_ascii c in
  ((48 <=? n)%nat && (n <=? 57)%nat)
  || ((65 <=? n)%nat && (n <=? 90)%nat)
  || (n =? 95)%nat
  || ((97 <=? n)%nat && (n <=? 122)%nat)
  || (n =? 170)%nat || (n =? 178)%nat || (n =? 179)%nat || (n =? 181)%nat
  || (n =? 185)%nat || (n =? 186)%nat
  || ((188 <=? n)%nat && (n <=? 190)%nat)
  || ((192 <=? n)%nat && (n <=? 214)%nat)
  || ((216 <=? n)%nat && (n <=? 246)%nat)
  || ((248 <=? n)%nat && (n <=? 255)%nat).

(** [re.sub(r'\W+', '', s)] *)
Fixpoint remove_nonword (s : string) : string :=
  match s with
  | EmptyString => EmptyString
  | String c s' =>
      if is_word c then String c (remove_nonword s') else remove_nonword s'
  end.

(** Line 73: the URL of the item from [str(item)]. *)
Definition wikidata_url (item : string) : outcome string :=
  match split_on ":" item with
  | _ :: part :: _ =>
      Returns ("https://www.wikidata.org/wiki/" +:+ remove_nonword part)
  | _ => Raises (IndexError "list index out of range")
  end.

(** An element of the list given to [batch_sync]: the keys the routine
    reads and the list under [external_resources.wikidata]. *)
Record batch_record := {
  artwork : ArtworkRecord;
  wikidata : list string
}.

(** Truth value of [item]. *)
Definition truthy_item (item : option string) : bool :=
  match item with
  | Some (String _ _) => true
  | _ => false
  end.

(** Lines 72 to 75: the record after its sync returned [item]. *)
Definition link_item (item : option string) (artwork_json : batch_record)
  : outcome batch_record :=
  if truthy_item item then
    match wikidata_url (default "" item) with
    | Returns wikidata_url =>
        if decide (wikidata_url ∉ wikidata artwork_json)
        then Returns {| artwork := artwork artwork_json;
                        wikidata := wikidata artwork_json ++ [wikidata_url] |}
        else Returns artwork_json
    | Raises e => Raises e
    end
  else Returns artwork_json.

(** What a batch leaves: its result or the exception that ended it, the
    knowledge base, and the messages it printed. *)
Record batch_end := {
  batch_result : outcome (list batch_record);
  batch_world : remote;
  printed : list string
}.

(** Lines 66 to 77: the loop of [batch_sync] from the [i]-th record on;
    [clock i] is the date of the [i]-th sync. *)
Fixpoint batch_loop (svc : service) (clock : nat -> date) (i : nat)
    (artwork_json_list : list batch_record) (result_list : list batch_record)
    (r : remote) (out : list string) : batch_end :=
  match artwork_json_list with
  | [] => {| batch_result := Returns result_list; batch_world := r;
             printed := out |}
  | artwork_json :: rest =>
      match _sync_wikidata_artwork svc (clock i) (artwork artwork_json) r with
      | (Raise e, r') =>
          {| batch_result := Raises (Raised e); batch_world := r';
             printed := out |}
      | (Ok v, r') =>
          match unpack2 v with
          | Raises e =>
              {| batch_result := Raises e; batch_world := r'; printed := out |}
          | Returns (message, item) =>
              let out := out ++ [message] in
              match link_item item artwork_json with
              | Raises e =>
                  {| batch_result := Raises e; batch_world := r';
                     printed := out |}
              | Returns artwork_json =>
                  batch_loop svc clock (S i) rest
                    (result_list ++ [artwork_json]) r' out
              end
          end
      end
  end.

(** Lines 62 to 77. *)
Definition batch_sync (svc : service) (clock : nat -> date)
    (artwork_json_list : list batch_record) (r : remote) : batch_end :=
  batch_loop svc clock 0 artwork_json_list [] r [].

(** The characters of [s] are all word characters. *)
Fixpoint all_word (s : string) : bool :=
  match s with
  | EmptyString => true
  | String c s' => is_word c && all_word s'
  end.


Definition every_day (d : date) : nat -> date := fun _ => d.

Definition relief_record : batch_record :=
  {| artwork := relief_1916; wikidata := [] |}.

Definition nameless_record : batch_record :=
  {| artwork := no_accession; wikidata := [] |}.

(** A record whose title is white space only, and whose type is not in the
    table. *)
Definition blank_title : ArtworkRecord :=
  {| accession_number := Some "1916.1";
     title := " " +:+ PyStr.nl +:+ " ";
     url := "https://clevelandart.org/art/1916.1";
     creation_date_earliest := Some (-100)%Z;
     creation_date_latest := Some 100%Z;
     creators := [];
     share_license_status := "CC0";
     type := "Poster";
     images := None |}.

(** * Lemmas and theorems *)

(** ** The model at work *)

Example lstrip_ex : PyStr.lstrip "  a b " = "a b ".
Proof. reflexivity. Qed.

Example rstrip_ex : PyStr.rstrip "  a b  " = "  a b".
Proof. reflexivity. Qed.

Example lower_ex : PyStr.lower "Relief 1" = "relief 1".
Proof. reflexivity. Qed.

Example drop_last_ex : PyStr.drop_last " a; b;" = " a; b".
Proof. reflexivity. Qed.

Example author_string_two :
  author_string [ {| description := Some "Jan Steen (Dutch)" |};
                  {| description := None |};
                  {| description := Some "" |};
                  {| description := Some "workshop" |} ]
  = "Jan Steen (Dutch); workshop".
Proof. reflexivity. Qed.

Example author_string_none : author_string [] = "unknown artist".
Proof. reflexivity. Qed.

Example make_description_ex :
  make_description "1916.1" "Relief" (author_string [])
  = "(1916.1) relief by unknown artist".
Proof. reflexivity. Qed.

(** ** The statement builder *)

Ltac build_cases a e :=
  destruct (decide (creation_date_earliest a = creation_date_latest a));
  destruct (creation_date_earliest a);
  cbn [truthy_int];
  repeat match goal with
         | |- context [negb (?z =? 0)%Z] => destruct (z =? 0)%Z; cbn [negb]
         end;
  destruct (decide (share_license_status a = "Copyrighted"));
  destruct (decide (share_license_status a = "CC0"));
  destruct (decide (share_license_status a = "Copyrighted"
                    \/ share_license_status a = "CC0"));
  try (exfalso; tauto); try congruence;
  destruct e as [? | ?];
  repeat match goal with
         | |- context [decide (?s <> "")] => destruct (decide (s <> ""))
         end;
  destruct (images a).

Ltac split_all := repeat match goal with |- _ /\ _ => split end.

Lemma monolingual_text_ok t :
  t <> "" -> pywikibot_WbMonolingualText t "en" = Ok (WbMonolingualText t "en").
Proof.
  intros Ht. unfold pywikibot_WbMonolingualText.
  destruct (decide _) as [[H|H]|H]; [contradiction | discriminate | reflexivity].
Qed.

(** With an accession number, a title that is not blank and a type of the
    table the builder returns, and this is what it has built. *)
Lemma build_inr now a acc e :
  accession_number a = Some acc ->
  clean_title (title a) <> "" ->
  entities_type !! type a = Some e ->
  exists b,
    build now a = Ok (inr b)
    /\ b_claims b = claims_of a e
    /\ b_accession_number b = acc
    /\ b_title b = clean_title (title a)
    /\ b_author_target b = author_string (creators a)
    /\ b_label b = make_label (clean_title (title a))
    /\ b_description b
       = make_description acc (type a) (author_string (creators a))
    /\ d_labels (b_newitem b) = [("en", make_label (clean_title (title a)))]
    /\ d_descriptions (b_newitem b) = [("en", fixed_description acc)]
    /\ mapM (toJSON (b_heap b)) (b_claims b) = Ok (statement_set b)
    /\ map (fun j => snak_property (mainsnak j)) (statement_set b)
       = map (fun c => pid (init_heap c)) (b_claims b)
    /\ map mainsnak (statement_set b)
       = map (expected_mainsnak a acc e) (b_claims b)
    /\ toJSON (b_heap b) commons_prop
       = match commons_ready a with
         | Some im => Ok (commons_json a im)
         | None => Raise unset_target
         end
    /\ (commons_ready a = None -> target (b_heap b commons_prop) = None).
Proof.
  intros Hacc Ht He.
  unfold build, claims_of, commons_ready, commons_json, fixed_description,
    statement_set, unset_target, expected_mainsnak.
  rewrite Hacc, He, (monolingual_text_ok _ Ht). clear Ht.
  generalize (author_string (creators a)) as au.
  generalize (clean_title (title a)) as ti. intros ti au.
  generalize (make_label ti) as la.
  generalize (make_description acc (type a) au) as de. intros de la.
  generalize (url a) as u. intros u.
  cbn [rbind].
  build_cases a e.
  all: match goal with
       | |- context [mapM (toJSON ?H) ?L] =>
           let r := eval vm_compute in (mapM (toJSON H) L) in
           replace (mapM (toJSON H) L) with r by (vm_compute; reflexivity);
           set (h := H)
       end.
  all: cbn [rbind].
  all: eexists; split; [reflexivity|].
  all: cbn [b_claims b_heap b_accession_number b_title b_author_target b_label
              b_description b_newitem d_labels d_descriptions d_claims].
  all: split_all.
  all: try reflexivity.
  all: try (vm_compute; reflexivity).
  all: try (intros; vm_compute; reflexivity).
  all: intros; discriminate.
Qed.

Lemma build_no_accession now a :
  accession_number a = None ->
  build now a
  = Raise (TypeError ("can only concatenate str (not " +:+ dq +:+ "KeyError"
                      +:+ dq +:+ ") to str")).
Proof. intros H. unfold build. rewrite H. reflexivity. Qed.

(** A blank title stops the builder at the title claim, whatever the rest
    of the record. *)
Lemma build_blank_title now a acc :
  accession_number a = Some acc ->
  clean_title (title a) = "" ->
  build now a = Raise empty_text.
Proof.
  intros Hacc Ht. unfold build. rewrite Hacc, Ht. reflexivity.
Qed.

Lemma build_unknown_type now a acc :
  accession_number a = Some acc ->
  clean_title (title a) <> "" ->
  entities_type !! type a = None ->
  build now a = Raise (KeyError (type a)).
Proof.
  intros Hacc Ht He. unfold build.
  rewrite Hacc, He, (monolingual_text_ok _ Ht). cbn [rbind].
  destruct (decide (creation_date_earliest a = creation_date_latest a));
    destruct (creation_date_earliest a); cbn [truthy_int];
    repeat match goal with
           | |- context [negb (?z =? 0)%Z] => destruct (z =? 0)%Z; cbn [negb]
           end;
    reflexivity.
Qed.

(** The builder returns a build exactly for the records [build_inr] covers. *)
Lemma build_inr_inv now a b :
  build now a = Ok (inr b) ->
  exists acc e,
    accession_number a = Some acc /\ clean_title (title a) <> ""
    /\ entities_type !! type a = Some e.
Proof.
  intros H.
  destruct (accession_number a) as [acc|] eqn:Hacc.
  - destruct (decide (clean_title (title a) = "")) as [Ht|Ht].
    + rewrite (build_blank_title now a acc Hacc Ht) in H. discriminate.
    + destruct (entities_type !! type a) as [e|] eqn:He.
      * eauto.
      * rewrite (build_unknown_type now a acc Hacc Ht He) in H. discriminate.
  - rewrite (build_no_accession now a Hacc) in H. discriminate.
Qed.

Lemma count_property_map p l :
  count_property p l
  = length (filter (fun q => q = p) (map (fun j => snak_property (mainsnak j)) l)).
Proof.
  unfold count_property. induction l as [|j l IH]; [reflexivity|].
  cbn [map]. rewrite !filter_cons. 
  destruct (decide (snak_property (mainsnak j) = p)); cbn [length]; congruence.
Qed.

(** ** Strings *)

Lemma append_cons (x : ascii) (a b : string) :
  String x a +:+ b = String x (a +:+ b).
Proof. reflexivity. Qed.

Lemma append_nil_l (b : string) : "" +:+ b = b.
Proof. reflexivity. Qed.





Lemma substring_all (a : string) n :
  String.length a <= n -> String.substring 0 n a = a.
Proof.
  revert n. induction a as [|x a IH]; intros n Hn; cbn.
  - now destruct n.
  - destruct n as [|n]; cbn in Hn; [lia|]. rewrite IH by lia. reflexivity.
Qed.

Lemma length_substring (a : string) n :
  String.length (String.substring 0 n a) <= n.
Proof.
  revert n. induction a as [|x a IH]; intros n; cbn.
  - destruct n; cbn; lia.
  - destruct n as [|n]; cbn; [lia|]. specialize (IH n). lia.
Qed.


(** ** The author string *)





(** ** Label and description *)

Lemma truncate_250 (s : string) :
  (if (250 <? PyStr.len s)%nat then PyStr.slice_to 250 s else s)
  = PyStr.slice_to 250 s.
Proof.
  unfold PyStr.len, PyStr.slice_to.
  destruct (250 <? String.length s)%nat eqn:H; [reflexivity|].
  apply Nat.ltb_ge in H. symmetry. now apply substring_all.
Qed.

(** C5 as stated fails: the label is cut from the cleaned title, not from
    the record's title. *)
Lemma label_counterexample :
  exists b, build today padded_title = Ok (inr b)
    /\ b_label b = "Relief of a Woman"
    /\ PyStr.slice_to 250 (title padded_title) = " Relief of a Woman"
    /\ b_label b <> PyStr.slice_to 250 (title padded_title).
Proof.
  eexists. split; [vm_compute; reflexivity|].
  split_all; [reflexivity | reflexivity | discriminate].
Qed.

(** C5, as the code has it, for a record the builder completes on (an
    accession number, a title that is not blank, a type of the table): the
    label is the record's title, stripped of surrounding white space and
    with its newlines and carriage returns turned into spaces, cut to 250
    characters; the description is "(<accession_number>) <type, lowercased>
    by <author-string>" cut to 250 characters, and it is "(1916.1) relief by
    unknown artist" for accession "1916.1", type "Relief" and no creators.
    *)
Theorem label_and_description now a acc e :
  accession_number a = Some acc ->
  clean_title (title a) <> "" ->
  entities_type !! type a = Some e ->
  exists b, build now a = Ok (inr b)
    /\ b_label b = PyStr.slice_to 250 (clean_title (title a))
    /\ PyStr.len (b_label b) <= 250
    /\ b_description b
       = PyStr.slice_to 250
           ("(" +:+ acc +:+ ") " +:+ PyStr.lower (type a) +:+ " by "
            +:+ author_string (creators a))
    /\ PyStr.len (b_description b) <= 250
    /\ (acc = "1916.1" -> type a = "Relief" -> creators a = [] ->
        b_description b = "(1916.1) relief by unknown artist").
Proof.
  intros Hacc Ht He.
  destruct (build_inr now a acc e Hacc Ht He)
    as (b & Hb & _ & _ & _ & _ & Hl & Hd & _).
  exists b. split; [exact Hb|].
  rewrite Hl, Hd. unfold make_label, make_description. rewrite !truncate_250.
  split_all; try reflexivity.
  - apply length_substring.
  - apply length_substring.
  - intros -> -> ->. reflexivity.
Qed.

Lemma label_and_description_witness :
  exists b, build today relief_1916 = Ok (inr b)
    /\ b_label b = "Relief of a Woman"
    /\ b_description b = "(1916.1) relief by unknown artist".
Proof.
  destruct (label_and_description today relief_1916 "1916.1" (EStr "Q11060274")
              eq_refl ltac:(vm_compute; discriminate) eq_refl) as (b & Hb & Hl & _ & _ & _ & Hd).
  exists b. split; [exact Hb|]. split.
  - rewrite Hl. reflexivity.
  - apply Hd; reflexivity.
Defined.

(** ** The inception claim *)

(** C8 as stated fails: equal creation dates that are the integer 0, which
    is not null, give no inception claim. *)
Lemma inception_counterexample :
  exists b, build today year_zero = Ok (inr b)
    /\ creation_date_earliest year_zero = creation_date_latest year_zero
    /\ creation_date_earliest year_zero <> None
    /\ creation_date_latest year_zero <> None
    /\ count_property "P571" (statement_set b) = 0.
Proof.
  eexists. split; [vm_compute; reflexivity|].
  split_all; [reflexivity | discriminate | discriminate | reflexivity].
Qed.

Lemma count_created a e :
  length (filter (fun q => q = "P571")
            (map (fun c => pid (init_heap c)) (claims_of a e)))
  = if decide (creation_date_earliest a = creation_date_latest a)
    then if truthy_int (creation_date_earliest a) then 1 else 0
    else 0.
Proof.
  unfold claims_of.
  destruct (decide (creation_date_earliest a = creation_date_latest a));
    destruct (truthy_int (creation_date_earliest a));
    destruct (decide (share_license_status a = "Copyrighted"
                      \/ share_license_status a = "CC0"));
    destruct e as [s|d]; try destruct (decide (s <> ""));
    reflexivity.
Qed.

(** C8, as the code has it, for a record the builder completes on (an
    accession number, a title that is not blank, a type of the table):
    exactly one inception claim when the earliest and latest creation dates
    are equal and the date is neither null nor zero; none when they differ,
    or are null, or are zero. *)
Theorem inception_claim now a acc e :
  accession_number a = Some acc ->
  clean_title (title a) <> "" ->
  entities_type !! type a = Some e ->
  exists b, build now a = Ok (inr b)
    /\ (forall y, creation_date_earliest a = Some y ->
                  creation_date_latest a = Some y -> y <> 0%Z ->
        count_property "P571" (statement_set b) = 1
        /\ {| snak_property := "P571"; snak_datavalue := WbTime y None None |}
           ∈ map mainsnak (statement_set b))
    /\ (creation_date_earliest a <> creation_date_latest a ->
        count_property "P571" (statement_set b) = 0)
    /\ (creation_date_earliest a = None ->
        count_property "P571" (statement_set b) = 0)
    /\ (creation_date_earliest a = Some 0%Z ->
        count_property "P571" (statement_set b) = 0).
Proof.
  intros Hacc Ht He.
  destruct (build_inr now a acc e Hacc Ht He)
    as (b & Hb & Hc & _ & _ & _ & _ & _ & _ & _ & _ & Hp & Hm & _).
  exists b. split; [exact Hb|].
  rewrite count_property_map, Hp, Hm, Hc, count_created.
  split_all.
  - intros y H1 H2 Hy. rewrite H1, H2.
    rewrite decide_True by reflexivity. cbn [truthy_int].
    destruct (Z.eqb_spec y 0); [contradiction|]. split; [reflexivity|].
    unfold claims_of. rewrite H1, H2. rewrite decide_True by reflexivity.
    cbn [truthy_int]. destruct (Z.eqb_spec y 0); [contradiction|].
    cbn [negb]. rewrite !map_app. rewrite !elem_of_app. right. left.
    cbn [map]. unfold expected_mainsnak. rewrite H1.
    apply list_elem_of_here.
  - intros H. now rewrite decide_False.
  - intros H. rewrite H. now destruct (decide _).
  - intros H. rewrite H. now destruct (decide _).
Qed.

Lemma inception_claim_witness :
  exists b, build today year_zero = Ok (inr b)
    /\ count_property "P571" (statement_set b) = 0.
Proof.
  destruct (inception_claim today year_zero "1916.1" (EStr "Q11060274")
              eq_refl ltac:(vm_compute; discriminate) eq_refl) as (b & Hb & _ & _ & _ & H0).
  exists b. split; [exact Hb|]. apply H0. reflexivity.
Defined.

(** ** The object-type claim *)

(** C3 as stated fails: a type that is not a key of the table is not
    skipped, the lookup raises and the builder does not complete. *)
Lemma object_type_counterexample :
  entities_type !! type poster = None
  /\ build today poster = Raise (KeyError "Poster").
Proof. split; vm_compute; reflexivity. Qed.

Lemma type_prop_in_claims a e :
  type_prop ∈ claims_of a e
  <-> exists s, e = EStr s /\ s <> "".
Proof.
  unfold claims_of.
  destruct (decide (creation_date_earliest a = creation_date_latest a));
    destruct (truthy_int (creation_date_earliest a));
    destruct (decide (share_license_status a = "Copyrighted"
                      \/ share_license_status a = "CC0"));
    destruct e as [s|d]; try destruct (decide (s <> ""));
    cbn [app]; rewrite ?elem_of_cons, ?elem_of_nil;
    (split; [intros H | intros (s' & H1 & H2)]);
    try (exists s; split; [reflexivity | assumption]);
    try (injection H1 as <-; contradiction);
    try discriminate;
    try (repeat destruct H as [H|H]; try discriminate H; contradiction);
    try (repeat right; try left; reflexivity);
    tauto.
Qed.

(** C3, as the code has it, for a record with an accession number and a
    title that is not blank: the object-type claim is emitted exactly when
    the table maps the record's type to a non-empty identifier; a type that
    maps to the empty string or to a nested dictionary is skipped and the
    builder completes; a type that is not in the table makes the builder
    raise a [KeyError]. *)
Theorem object_type_claim now a acc :
  accession_number a = Some acc ->
  clean_title (title a) <> "" ->
  match entities_type !! type a with
  | Some (EStr s) =>
      exists b, build now a = Ok (inr b)
        /\ if decide (s = "") then type_prop ∉ b_claims b
           else type_prop ∈ b_claims b
                /\ {| snak_property := "P31"; snak_datavalue := ItemPage s |}
                   ∈ map mainsnak (statement_set b)
  | Some (EDict _) =>
      exists b, build now a = Ok (inr b) /\ type_prop ∉ b_claims b
  | None => build now a = Raise (KeyError (type a))
  end.
Proof.
  intros Hacc Ht.
  destruct (entities_type !! type a) as [e|] eqn:He;
    [| now apply build_unknown_type with acc].
  destruct (build_inr now a acc e Hacc Ht He)
    as (b & Hb & Hc & _ & _ & _ & _ & _ & _ & _ & _ & _ & Hm & _).
  destruct e as [s|d]; exists b; (split; [exact Hb|]); rewrite ?Hm, Hc.
  - destruct (decide (s = "")) as [Hs|Hs].
    + rewrite type_prop_in_claims. intros (s' & H1 & H2).
      injection H1 as <-. contradiction.
    + assert (Hin : type_prop ∈ claims_of a (EStr s))
        by (apply type_prop_in_claims; eauto).
      split; [exact Hin|].
      apply (list_elem_of_fmap_2 (expected_mainsnak a acc (EStr s))) in Hin.
      exact Hin.
  - rewrite type_prop_in_claims. intros (s' & H1 & _). discriminate.
Qed.

Lemma object_type_claim_witness :
  exists b, build today relief_1916 = Ok (inr b)
    /\ type_prop ∈ b_claims b.
Proof.
  pose proof (object_type_claim today relief_1916 "1916.1" eq_refl
                ltac:(vm_compute; discriminate)) as H.
  change (entities_type !! type relief_1916) with (Some (EStr "Q11060274")) in H.
  destruct H as (b & Hb & H). exists b. split; [exact Hb|].
  destruct (decide ("Q11060274" = "")); [discriminate|]. apply H.
Defined.

(** ** The Commons claim *)

(** C4 as stated fails: the Commons claim of a CC0 record with a print
    image is not among the claims of the statement set. *)
Lemma commons_counterexample :
  exists b, build today relief_1916 = Ok (inr b)
    /\ share_license_status relief_1916 = "CC0"
    /\ images relief_1916 <> None
    /\ (commons_prop ∉ b_claims b)
    /\ count_property "P4765" (statement_set b) = 0.
Proof.
  eexists. split; [vm_compute; reflexivity|].
  split_all; [reflexivity | discriminate | | reflexivity].
  cbn. rewrite !elem_of_cons, elem_of_nil.
  intros H. repeat destruct H as [H|H]; try discriminate H. exact H.
Qed.

Lemma commons_not_in_claims a e :
  (commons_prop ∉ claims_of a e)
  /\ length (filter (fun q => q = "P4765")
               (map (fun c => pid (init_heap c)) (claims_of a e))) = 0.
Proof.
  unfold claims_of.
  destruct (decide (creation_date_earliest a = creation_date_latest a));
    destruct (truthy_int (creation_date_earliest a));
    destruct (decide (share_license_status a = "Copyrighted"
                      \/ share_license_status a = "CC0"));
    destruct e as [s|d]; try destruct (decide (s <> ""));
    (split; [| reflexivity]);
    cbn [app]; rewrite ?elem_of_cons, ?elem_of_nil;
    intros H; repeat destruct H as [H|H]; try discriminate H; exact H.
Qed.

(** C4, as the code has it, for a record the builder completes on (an
    accession number, a title that is not blank, a type of the table): the
    Commons claim is never one of the claims of the statement set; it is a
    separate claim object, which for a CC0 record with a print image holds
    the image URL with the author-string, title, format, license, operator
    and reference-URL qualifiers, and which is left without target for every
    other record, a Copyrighted one in particular. *)
Theorem commons_claim now a acc e :
  accession_number a = Some acc ->
  clean_title (title a) <> "" ->
  entities_type !! type a = Some e ->
  exists b, build now a = Ok (inr b)
    /\ (commons_prop ∉ b_claims b)
    /\ count_property "P4765" (statement_set b) = 0
    /\ (forall im, share_license_status a = "CC0" -> images a = Some im ->
        toJSON (b_heap b) commons_prop = Ok (commons_json a im))
    /\ (share_license_status a <> "CC0" ->
        target (b_heap b commons_prop) = None
        /\ toJSON (b_heap b) commons_prop = Raise unset_target)
    /\ (share_license_status a = "Copyrighted" ->
        target (b_heap b commons_prop) = None
        /\ toJSON (b_heap b) commons_prop = Raise unset_target).
Proof.
  intros Hacc Ht He.
  destruct (build_inr now a acc e Hacc Ht He)
    as (b & Hb & Hc & _ & _ & _ & _ & _ & _ & _ & _ & Hp & _ & Hj & Hu).
  exists b. split; [exact Hb|].
  rewrite count_property_map, Hp, Hc.
  destruct (commons_not_in_claims a e) as [Hn Hz].
  assert (Hne : share_license_status a <> "CC0" ->
                target (b_heap b commons_prop) = None
                /\ toJSON (b_heap b) commons_prop = Raise unset_target).
  { intros H. unfold commons_ready in *. rewrite decide_False in Hj, Hu by exact H.
    split; [now apply Hu | exact Hj]. }
  split_all; try assumption.
  - intros im H1 H2. unfold commons_ready in Hj.
    rewrite decide_True, H2 in Hj by exact H1. exact Hj.
  - intros H. apply Hne. rewrite H. discriminate.
Qed.

Lemma commons_claim_witness :
  exists b, build today relief_1916 = Ok (inr b)
    /\ (commons_prop ∉ b_claims b)
    /\ exists j, toJSON (b_heap b) commons_prop = Ok j
                 /\ snak_datavalue (mainsnak j)
                    = Str "https://openaccess-cdn.clevelandart.org/1916.1/1916.1_print.jpg".
Proof.
  destruct (commons_claim today relief_1916 "1916.1" (EStr "Q11060274")
              eq_refl ltac:(vm_compute; discriminate) eq_refl) as (b & Hb & Hn & _ & Hj & _).
  exists b. split; [exact Hb|]. split; [exact Hn|].
  eexists. split; [apply Hj; reflexivity | reflexivity].
Defined.

(** ** A record without accession number *)

(** C2, what the code does: for a record without the [accession_number]
    key the handler's [output += e] adds an exception to a string, so the
    routine raises a [TypeError] instead of returning the error message;
    the knowledge base is left as it was, no write call is issued. *)
Theorem missing_accession_number_raises svc now a r :
  accession_number a = None ->
  _sync_wikidata_artwork svc now a r
  = (Raise (TypeError ("can only concatenate str (not " +:+ dq +:+ "KeyError"
                       +:+ dq +:+ ") to str")), r)
  /\ writes_of svc now a r = [].
Proof.
  intros H. unfold writes_of, _sync_wikidata_artwork.
  rewrite (build_no_accession now a H). cbn [snd].
  split; [reflexivity|]. apply drop_all.
Qed.

(** ** Claims of an item *)

Lemma additive_refl m : additive m m.
Proof. intros p l H. exists []. now rewrite app_nil_r. Qed.

Lemma additive_trans m1 m2 m3 :
  additive m1 m2 -> additive m2 m3 -> additive m1 m3.
Proof.
  intros H12 H23 p l H. destruct (H12 p l H) as [l' H'].
  destruct (H23 p _ H') as [l'' H'']. exists (l' ++ l'').
  now rewrite app_assoc.
Qed.

Lemma additive_has_sig m m' sn : additive m m' -> has_sig m sn -> has_sig m' sn.
Proof.
  intros Ha (p & l & c & Hl & Hc & Hs). destruct (Ha p l Hl) as [l' Hl'].
  exists p, (l ++ l'), c. split_all; [exact Hl' | | exact Hs].
  apply elem_of_app. now left.
Qed.

Lemma additive_key m m' p : additive m m' -> m !! p <> None -> m' !! p <> None.
Proof.
  intros Ha H. destruct (m !! p) as [l|] eqn:Hl; [|contradiction].
  destruct (Ha p l Hl) as [l' Hl']. now rewrite Hl'.
Qed.

Lemma insert_claim_additive c m : additive m (insert_claim c m).
Proof.
  intros p l H. unfold insert_claim.
  destruct (decide (snak_property (mainsnak c) = p)) as [->|Hne].
  - rewrite H. cbn [default]. exists [c]. apply lookup_insert_eq.
  - exists []. rewrite app_nil_r. now rewrite lookup_insert_ne.
Qed.

Lemma insert_claim_has_sig c m : has_sig (insert_claim c m) (mainsnak c).
Proof.
  exists (snak_property (mainsnak c)),
    (default [] (m !! snak_property (mainsnak c)) ++ [c]), c.
  split_all; [apply lookup_insert_eq | | reflexivity].
  apply elem_of_app. right. apply list_elem_of_here.
Qed.

Lemma insert_claim_key c m : insert_claim c m !! snak_property (mainsnak c) <> None.
Proof. unfold insert_claim. now rewrite lookup_insert_eq. Qed.

Lemma collect_inner (l : list claim_json) (acc : list snak) (sn : snak) :
  sn ∈ fold_left
         (fun clms clm =>
            if decide (mainsnak clm ∈ clms) then clms else clms ++ [mainsnak clm])
         l acc
  <-> sn ∈ acc \/ exists c, c ∈ l /\ mainsnak c = sn.
Proof.
  revert acc. induction l as [|c l IH]; intros acc; cbn [fold_left].
  - split; [now left|]. intros [H | (c & Hc & _)]; [exact H|].
    now apply elem_of_nil in Hc.
  - rewrite IH. destruct (decide (mainsnak c ∈ acc)) as [Hin|Hin].
    + split.
      * intros [H | (c' & Hc' & Hs)]; [now left|]. right. exists c'.
        split; [now apply list_elem_of_further | exact Hs].
      * intros [H | (c' & Hc' & Hs)]; [now left|].
        apply elem_of_cons in Hc' as [-> | Hc'].
        -- left. now rewrite <- Hs.
        -- right. eauto.
    + rewrite elem_of_app, list_elem_of_singleton. split.
      * intros [[H | ->] | (c' & Hc' & Hs)]; [now left | |].
        -- right. exists c. split; [apply list_elem_of_here | reflexivity].
        -- right. exists c'. split; [now apply list_elem_of_further | exact Hs].
      * intros [H | (c' & Hc' & Hs)]; [now left; left|].
        apply elem_of_cons in Hc' as [-> | Hc'].
        -- left. right. now rewrite Hs.
        -- right. eauto.
Qed.

Lemma collect_outer (pls : list (string * list claim_json)) (acc : list snak)
    (sn : snak) :
  sn ∈ fold_left
         (fun clms (pl : string * list claim_json) =>
            fold_left
              (fun clms clm =>
                 if decide (mainsnak clm ∈ clms) then clms
                 else clms ++ [mainsnak clm])
              pl.2 clms)
         pls acc
  <-> sn ∈ acc \/ exists pl c, pl ∈ pls /\ c ∈ pl.2 /\ mainsnak c = sn.
Proof.
  revert acc. induction pls as [|pl pls IH]; intros acc; cbn [fold_left].
  - split; [now left|]. intros [H | (pl & c & Hpl & _)]; [exact H|].
    now apply elem_of_nil in Hpl.
  - rewrite IH, collect_inner. split.
    + intros [[H | (c & Hc & Hs)] | (pl' & c & Hpl & Hc & Hs)].
      * now left.
      * right. exists pl, c. split_all; [apply list_elem_of_here | exact Hc | exact Hs].
      * right. exists pl', c.
        split_all; [now apply list_elem_of_further | exact Hc | exact Hs].
    + intros [H | (pl' & c & Hpl & Hc & Hs)]; [now left; left|].
      apply elem_of_cons in Hpl as [-> | Hpl].
      * left. right. eauto.
      * right. eauto.
Qed.

(** The collected main snaks are those of the item's claims. *)
Lemma collect_clms_spec m sn : sn ∈ collect_clms m <-> has_sig m sn.
Proof.
  unfold collect_clms, has_sig. rewrite collect_outer. split.
  - intros [H | (pl & c & Hpl & Hc & Hs)]; [now apply elem_of_nil in H|].
    destruct pl as [p l]. apply elem_of_map_to_list in Hpl. eauto 6.
  - intros (p & l & c & Hl & Hc & Hs). right. exists (p, l), c.
    split_all; [now apply elem_of_map_to_list | exact Hc | exact Hs].
Qed.

(** ** The steps of the reconciliation *)

Lemma sync_label_run b q s e :
  ent s q e -> sync_label b q s = (Ok tt, after_label b q e s).
Proof.
  unfold ent. intros He.
  unfold sync_label, after_label, try_except, bind, item_get, lift, subscript,
    item_editLabels, with_world, output_add, ret, label_message.
  rewrite He. destruct (labels e !! "en") as [l|] eqn:Hl; cbn.
  - destruct (decide (l <> b_label b)) as [Hne|Heq].
    + rewrite decide_False by congruence. reflexivity.
    + apply dec_stable in Heq. subst l. rewrite decide_True by reflexivity.
      reflexivity.
  - rewrite He, Hl. cbn. rewrite decide_False by discriminate. reflexivity.
Qed.

Lemma sync_description_run b q s e :
  ent s q e -> sync_description b q s = (Ok tt, after_description b q e s).
Proof.
  unfold ent. intros He.
  unfold sync_description, after_description, try_except, bind, item_get, lift,
    subscript, item_editDescriptions, with_world, output_add, ret,
    description_message.
  rewrite He. destruct (descriptions e !! "en") as [l|] eqn:Hl; cbn.
  - destruct (decide (l <> b_description b)) as [Hne|Heq].
    + rewrite decide_False by congruence. reflexivity.
    + apply dec_stable in Heq. subst l. rewrite decide_True by reflexivity.
      reflexivity.
  - rewrite He, Hl. cbn. rewrite decide_False by discriminate. reflexivity.
Qed.

Lemma sync_commons_run svc a b q s e :
  ent s q e ->
  toJSON (b_heap b) commons_prop
  = match commons_ready a with
    | Some im => Ok (commons_json a im)
    | None => Raise unset_target
    end ->
  sync_commons svc a b q s = (Ok tt, after_commons a b q e s).
Proof.
  unfold ent. intros He Hj.
  unfold sync_commons, after_commons, commons_due, commons_ready in *.
  destruct (decide (share_license_status a = "CC0")); [|reflexivity].
  destruct (images a) as [im|]; [|reflexivity].
  unfold bind at 1, item_get at 1. rewrite He.
  destruct (decide (claims e !! "P18" = None)); [|reflexivity].
  unfold bind at 1, item_get at 1. rewrite He.
  destruct (decide (claims e !! "P4765" = None)); [|reflexivity].
  unfold try_except, bind, item_addClaim, bind, lift, with_world, output_add.
  rewrite Hj. reflexivity.
Qed.

Lemma sync_statement_run b q clms c j s :
  toJSON (b_heap b) c = Ok j ->
  (stmnt_compare <- lift (toJSON (b_heap b) c) ;;
   if decide (mainsnak stmnt_compare ∈ clms) then ret tt
   else
     item_addClaim (b_heap b) q c
       (sync_summary "statement" (b_accession_number b)) ;;
     j <- lift (toJSON (b_heap b) c) ;;
     output_add (PyStr.nl +:+ PyStr.tab +:+ "Synchronizing missing " +:+ sq
                 +:+ snak_property (mainsnak j) +:+ sq +:+ " claim for "
                 +:+ str_item q +:+ ": " +:+ b_label b)) s
  = (Ok tt, after_statement b q clms j s).
Proof.
  intros Hj.
  unfold after_statement, statement_message, bind, lift, item_addClaim, bind,
    lift, with_world, output_add, ret.
  rewrite Hj. destruct (decide (mainsnak j ∈ clms)); reflexivity.
Qed.

Lemma sync_statements_run b q clms js s :
  mapM (toJSON (b_heap b)) (b_claims b) = Ok js ->
  sync_statements b q clms s = (Ok tt, after_statements b q clms js s).
Proof.
  unfold sync_statements. generalize (b_claims b) as cs.
  intros cs. revert js s. induction cs as [|c cs IH]; intros js s Hm.
  - injection Hm as <-. reflexivity.
  - cbn [mapM] in Hm.
    destruct (toJSON (b_heap b) c) as [j|] eqn:Hj; [|discriminate].
    cbn [rbind] in Hm.
    destruct (mapM (toJSON (b_heap b)) cs) as [js'|] eqn:Hjs; [|discriminate].
    cbn [rbind] in Hm. injection Hm as <-.
    cbn [for_each after_statements]. unfold bind at 1.
    rewrite (sync_statement_run b q clms c j s Hj).
    now apply IH.
Qed.

(** ** What the steps leave in the knowledge base *)

Lemma ent_do_editLabels r q new summary e :
  store r !! q = Some e ->
  store (do_editLabels q new summary r) !! q
  = Some {| labels := set_terms new (labels e);
            descriptions := descriptions e; claims := claims e |}.
Proof. intros H. cbn [do_editLabels store]. now rewrite lookup_alter_eq, H. Qed.

Lemma ent_do_editDescriptions r q new summary e :
  store r !! q = Some e ->
  store (do_editDescriptions q new summary r) !! q
  = Some {| labels := labels e;
            descriptions := set_terms new (descriptions e);
            claims := claims e |}.
Proof.
  intros H. cbn [do_editDescriptions store]. now rewrite lookup_alter_eq, H.
Qed.

Lemma ent_do_addClaim r q j summary e :
  store r !! q = Some e ->
  store (do_addClaim q j summary r) !! q
  = Some {| labels := labels e; descriptions := descriptions e;
            claims := insert_claim
                        (with_id (q +:+ "$" +:+ pretty (next_id r)) j)
                        (claims e) |}.
Proof. intros H. cbn [do_addClaim store]. now rewrite lookup_alter_eq, H. Qed.

Lemma after_label_ent b q e s :
  ent s q e ->
  exists e', ent (after_label b q e s) q e'
    /\ labels e' !! "en" = Some (b_label b)
    /\ descriptions e' = descriptions e
    /\ claims e' = claims e.
Proof.
  unfold ent, after_label. intros H.
  destruct (decide (labels e !! "en" = Some (b_label b))) as [Hl|Hl].
  - exists e. split_all; try reflexivity; assumption.
  - eexists. split; [cbn [world]; apply ent_do_editLabels; exact H|].
    cbn. split_all; try reflexivity. apply lookup_insert_eq.
Qed.

Lemma after_description_ent b q e e1 s :
  ent s q e1 ->
  descriptions e1 = descriptions e ->
  exists e', ent (after_description b q e s) q e'
    /\ labels e' = labels e1
    /\ descriptions e' !! "en" = Some (b_description b)
    /\ claims e' = claims e1.
Proof.
  unfold ent, after_description. intros H Hd.
  destruct (decide (descriptions e !! "en" = Some (b_description b))) as [Hl|Hl].
  - exists e1. split_all; try reflexivity; [exact H | now rewrite Hd].
  - eexists. split; [cbn [world]; apply ent_do_editDescriptions; exact H|].
    cbn. split_all; try reflexivity. apply lookup_insert_eq.
Qed.

Lemma after_commons_ent a b q e e1 s :
  ent s q e1 ->
  claims e1 = claims e ->
  exists e', ent (after_commons a b q e s) q e'
    /\ labels e' = labels e1
    /\ descriptions e' = descriptions e1
    /\ additive (claims e1) (claims e')
    /\ (commons_ready a <> None ->
        claims e' !! "P18" <> None \/ claims e' !! "P4765" <> None).
Proof.
  unfold ent, after_commons, commons_due. intros H Hc.
  destruct (commons_ready a) as [im|].
  - destruct (decide (claims e !! "P18" = None)) as [H18|H18].
    + destruct (decide (claims e !! "P4765" = None)) as [H47|H47].
      * eexists. split; [cbn [world]; apply ent_do_addClaim; exact H|].
        cbn [labels descriptions claims]. split_all; try reflexivity.
        -- apply insert_claim_additive.
        -- intros _. right.
           apply (insert_claim_key
                    (with_id (q +:+ "$" +:+ pretty (next_id (world s)))
                       (commons_json a im))).
      * exists e1. split_all; try reflexivity; [exact H | apply additive_refl |].
        intros _. right. now rewrite Hc.
    + exists e1. split_all; try reflexivity; [exact H | apply additive_refl |].
      intros _. left. now rewrite Hc.
  - exists e1. split_all; try reflexivity; [exact H | apply additive_refl |].
    intros Hn. now contradiction Hn.
Qed.

Lemma after_statement_ent b q clms j e1 s :
  ent s q e1 ->
  exists e', ent (after_statement b q clms j s) q e'
    /\ labels e' = labels e1
    /\ descriptions e' = descriptions e1
    /\ additive (claims e1) (claims e')
    /\ (mainsnak j ∈ clms \/ has_sig (claims e') (mainsnak j)).
Proof.
  unfold ent, after_statement. intros H.
  destruct (decide (mainsnak j ∈ clms)) as [Hin|Hin].
  - exists e1. split_all; try reflexivity; [exact H | apply additive_refl |].
    now left.
  - eexists. split; [cbn [world]; apply ent_do_addClaim; exact H|].
    cbn [labels descriptions claims]. split_all; try reflexivity.
    + apply insert_claim_additive.
    + right.
      apply (insert_claim_has_sig
               (with_id (q +:+ "$" +:+ pretty (next_id (world s))) j)).
Qed.

Lemma after_statements_ent b q clms js e1 s :
  ent s q e1 ->
  exists e', ent (after_statements b q clms js s) q e'
    /\ labels e' = labels e1
    /\ descriptions e' = descriptions e1
    /\ additive (claims e1) (claims e')
    /\ (forall j, j ∈ js -> mainsnak j ∈ clms \/ has_sig (claims e') (mainsnak j)).
Proof.
  revert e1 s. induction js as [|j js IH]; intros e1 s H; cbn [after_statements].
  - exists e1. split_all; try reflexivity; [exact H | apply additive_refl |].
    intros j Hj. now apply elem_of_nil in Hj.
  - destruct (after_statement_ent b q clms j e1 s H)
      as (e2 & H2 & Hl2 & Hd2 & Ha2 & Hs2).
    destruct (IH e2 _ H2) as (e3 & H3 & Hl3 & Hd3 & Ha3 & Hs3).
    exists e3. split_all.
    + exact H3.
    + congruence.
    + congruence.
    + eapply additive_trans; eassumption.
    + intros j' Hj'. apply elem_of_cons in Hj' as [-> | Hj'].
      * destruct Hs2 as [Hs2|Hs2]; [now left|]. right.
        eapply additive_has_sig; eassumption.
      * now apply Hs3.
Qed.

(** ** The write calls of a reconciliation *)

Lemma after_label_log b q e s :
  log (world (after_label b q e s)) = log (world s) ++ label_writes b q e.
Proof.
  unfold after_label, label_writes.
  destruct (decide _); [now rewrite app_nil_r | reflexivity].
Qed.

Lemma after_description_log b q e s :
  log (world (after_description b q e s))
  = log (world s) ++ description_writes b q e.
Proof.
  unfold after_description, description_writes.
  destruct (decide _); [now rewrite app_nil_r | reflexivity].
Qed.

Lemma after_commons_log a b q e s :
  log (world (after_commons a b q e s)) = log (world s) ++ commons_writes a b q e.
Proof.
  unfold after_commons, commons_writes.
  destruct (commons_due a e); [reflexivity | now rewrite app_nil_r].
Qed.

Lemma after_statements_log b q clms js s :
  log (world (after_statements b q clms js s))
  = log (world s) ++ statement_writes b q clms js.
Proof.
  unfold statement_writes. revert s.
  induction js as [|j js IH]; intros s; cbn [after_statements].
  - cbn. now rewrite app_nil_r.
  - rewrite IH, filter_cons. unfold after_statement.
    destruct (decide (mainsnak j ∈ clms)) as [Hin|Hin].
    + rewrite decide_False by (intros H; now apply H). reflexivity.
    + rewrite decide_True by exact Hin. cbn [world do_addClaim log map].
      now rewrite <- app_assoc.
Qed.

Lemma after_reconcile_log a b q e s :
  log (world (after_reconcile a b q e s))
  = log (world s) ++ reconcile_writes a b q e.
Proof.
  unfold after_reconcile, reconcile_writes.
  rewrite after_statements_log, after_commons_log, after_description_log,
    after_label_log.
  cbn [world]. now rewrite <- !app_assoc.
Qed.

Lemma after_description_ext b q e e' s :
  descriptions e = descriptions e' ->
  after_description b q e s = after_description b q e' s.
Proof. unfold after_description. now intros ->. Qed.

Lemma after_commons_ext a b q e e' s :
  claims e = claims e' -> after_commons a b q e s = after_commons a b q e' s.
Proof. unfold after_commons, commons_due. now intros ->. Qed.

(** The reconciliation of an existing item runs to its end. *)
Lemma reconcile_run svc a b q s e :
  ent s q e ->
  mapM (toJSON (b_heap b)) (b_claims b) = Ok (statement_set b) ->
  toJSON (b_heap b) commons_prop
  = match commons_ready a with
    | Some im => Ok (commons_json a im)
    | None => Raise unset_target
    end ->
  reconcile svc a b q s = (Ok tt, after_reconcile a b q e s).
Proof.
  intros He Hm Hj. unfold reconcile, after_reconcile.
  unfold bind at 1, item_get at 1. rewrite He.
  unfold bind at 1, output_add at 1.
  unfold bind at 1, set_item_return at 1. cbn [world output item_return].
  set (s1 := {| world := world s; output := _; item_return := _ |}).
  assert (He1 : ent s1 q e) by exact He.
  unfold bind at 1. rewrite (sync_label_run b q s1 e He1).
  destruct (after_label_ent b q e s1 He1) as (e2 & He2 & _ & Hd2 & Hc2).
  unfold bind at 1. rewrite (sync_description_run b q _ e2 He2).
  rewrite (after_description_ext b q e2 e _ Hd2).
  destruct (after_description_ent b q e e2 _ He2 Hd2) as (e3 & He3 & _ & _ & Hc3).
  unfold bind at 1, item_get at 1. rewrite He3.
  unfold bind at 1. rewrite (sync_commons_run svc a b q _ e3 He3 Hj).
  assert (Hc : claims e3 = claims e) by congruence.
  rewrite (after_commons_ext a b q e3 e _ Hc), Hc.
  now apply sync_statements_run.
Qed.

Lemma after_reconcile_ent a b q e s :
  ent s q e ->
  exists e', ent (after_reconcile a b q e s) q e'
    /\ labels e' !! "en" = Some (b_label b)
    /\ descriptions e' !! "en" = Some (b_description b)
    /\ additive (claims e) (claims e')
    /\ (forall j, j ∈ statement_set b -> has_sig (claims e') (mainsnak j))
    /\ (commons_ready a <> None ->
        claims e' !! "P18" <> None \/ claims e' !! "P4765" <> None).
Proof.
  intros He. unfold after_reconcile.
  set (s1 := {| world := world s; output := _; item_return := _ |}).
  assert (He1 : ent s1 q e) by exact He.
  destruct (after_label_ent b q e s1 He1) as (e2 & He2 & Hl2 & Hd2 & Hc2).
  destruct (after_description_ent b q e e2 _ He2 Hd2)
    as (e3 & He3 & Hl3 & Hd3 & Hc3).
  assert (Hc : claims e3 = claims e) by congruence.
  destruct (after_commons_ent a b q e e3 _ He3 Hc)
    as (e4 & He4 & Hl4 & Hd4 & Ha4 & Hk4).
  destruct (after_statements_ent b q (collect_clms (claims e)) (statement_set b)
              e4 _ He4) as (e5 & He5 & Hl5 & Hd5 & Ha5 & Hs5).
  exists e5. split_all.
  - exact He5.
  - congruence.
  - congruence.
  - rewrite <- Hc. eapply additive_trans; eassumption.
  - intros j Hin. destruct (Hs5 j Hin) as [H|H]; [|exact H].
    apply collect_clms_spec in H. rewrite <- Hc in H.
    eapply additive_has_sig; [|exact H]. eapply additive_trans; eassumption.
  - intros Hr. destruct (Hk4 Hr) as [H|H]; [left|right];
      eapply additive_key; eassumption.
Qed.

Lemma filter_none {A} (P : A -> Prop) `{forall x, Decision (P x)} (l : list A) :
  (forall x, x ∈ l -> ~ P x) -> filter P l = [].
Proof.
  induction l as [|x l IH]; intros Hl; [reflexivity|].
  rewrite filter_cons, decide_False by (apply Hl, list_elem_of_here).
  apply IH. intros y Hy. apply Hl. now apply list_elem_of_further.
Qed.

Lemma synced_no_writes a b q e : synced a b e -> reconcile_writes a b q e = [].
Proof.
  intros (Hl & Hd & Hs & Hc).
  unfold reconcile_writes, label_writes, description_writes, commons_writes,
    commons_due, statement_writes.
  rewrite decide_True by exact Hl. rewrite decide_True by exact Hd.
  assert (Hcm : match commons_ready a with
                | Some im =>
                    if decide (claims e !! "P18" = None)
                    then if decide (claims e !! "P4765" = None)
                         then Some im else None
                    else None
                | None => None
                end = None).
  { destruct (commons_ready a) as [im|]; [|reflexivity].
    destruct (Hc ltac:(discriminate)) as [H|H].
    - now rewrite decide_False.
    - destruct (decide (claims e !! "P18" = None)); [|reflexivity].
      now rewrite decide_False. }
  rewrite Hcm. cbn [app].
  assert (Hf : filter (fun j => mainsnak j ∉ collect_clms (claims e))
                 (statement_set b) = []).
  { apply filter_none. intros j Hj Hn. apply Hn.
    apply collect_clms_spec, Hs. now apply list_elem_of_fmap_2. }
  now rewrite Hf.
Qed.

(** ** The whole routine *)

Lemma writes_of_log svc now a r res r' ws :
  _sync_wikidata_artwork svc now a r = (res, r') ->
  log r' = log r ++ ws ->
  writes_of svc now a r = ws.
Proof.
  intros H Hl. unfold writes_of. rewrite H. cbn [snd]. rewrite Hl.
  now rewrite drop_app_length.
Qed.

Lemma sync_blank_title svc now a acc r :
  accession_number a = Some acc ->
  clean_title (title a) = "" ->
  _sync_wikidata_artwork svc now a r = (Raise empty_text, r).
Proof.
  intros Hacc Ht. unfold _sync_wikidata_artwork.
  now rewrite (build_blank_title now a acc Hacc Ht).
Qed.

Lemma sync_unparsable svc now a b r :
  build now a = Ok (inr b) ->
  lookup_result svc (b_accession_number b) = None ->
  _sync_wikidata_artwork svc now a r = (Ok ReturnNone, r).
Proof.
  unfold lookup_result. intros Hb Hl.
  unfold _sync_wikidata_artwork, sync_items. rewrite Hb, Hl. reflexivity.
Qed.

Lemma sync_one_match svc now a b r q e :
  build now a = Ok (inr b) ->
  mapM (toJSON (b_heap b)) (b_claims b) = Ok (statement_set b) ->
  toJSON (b_heap b) commons_prop
  = match commons_ready a with
    | Some im => Ok (commons_json a im)
    | None => Raise unset_target
    end ->
  lookup_result svc (b_accession_number b) = Some [q] ->
  store r !! q = Some e ->
  _sync_wikidata_artwork svc now a r
  = (Ok (ReturnPair (output (after_reconcile a b q e (start r)))
           (item_return (after_reconcile a b q e (start r)))),
     world (after_reconcile a b q e (start r))).
Proof.
  unfold lookup_result. intros Hb Hm Hj Hl He.
  unfold _sync_wikidata_artwork, sync_items. rewrite Hb, Hl.
  cbn [length head default].
  rewrite decide_False by discriminate. rewrite decide_True by reflexivity.
  fold (start r). unfold id.
  unfold bind at 1, ret at 1. unfold bind at 1.
  rewrite (reconcile_run svc a b q (start r) e He Hm Hj).
  reflexivity.
Qed.

Lemma after_statements_item_return b q clms js s :
  item_return (after_statements b q clms js s) = item_return s.
Proof.
  revert s. induction js as [|j js IH]; intros s; cbn [after_statements];
    [reflexivity|].
  rewrite IH. unfold after_statement. now destruct (decide _).
Qed.

Lemma after_reconcile_item_return a b q e s :
  item_return (after_reconcile a b q e s) = Some (str_item q).
Proof.
  unfold after_reconcile. rewrite after_statements_item_return.
  unfold after_commons, after_description, after_label.
  destruct (commons_due a e); repeat destruct (decide _); reflexivity.
Qed.

Lemma sync_no_match svc now a b r :
  build now a = Ok (inr b) ->
  toJSON (b_heap b) commons_prop
  = match commons_ready a with
    | Some im => Ok (commons_json a im)
    | None => Raise unset_target
    end ->
  lookup_result svc (b_accession_number b) = Some [] ->
  save_conflict svc = None ->
  let acc := b_accession_number b in
  let qid := "Q" +:+ pretty (next_id r) in
  let r1 := do_editEntity qid (b_newitem b) (import_summary acc) r in
  _sync_wikidata_artwork svc now a r
  = match commons_ready a with
    | Some im =>
        (Ok (ReturnPair (uploaded acc qid) (Some (str_item qid))),
         do_addClaim qid (commons_json a im) (sync_summary "statement" acc) r1)
    | None =>
        (Ok (ReturnPair (upload_failed acc (attribute_error_text svc)) None), r1)
    end.
Proof.
  unfold lookup_result. intros Hb Hj Hl Hc. cbv zeta.
  unfold _sync_wikidata_artwork, sync_items. rewrite Hb, Hl.
  cbn [length]. rewrite decide_True by reflexivity.
  rewrite decide_False by discriminate.
  unfold bind at 1. unfold create, try_except at 1, bind at 1, item_editEntity.
  rewrite Hc. cbn [world output item_return start].
  unfold try_except, bind at 1, item_addClaim, bind at 1, lift. rewrite Hj.
  destruct (commons_ready a) as [im|]; reflexivity.
Qed.

Lemma sync_no_match_conflict svc now a b r msg :
  build now a = Ok (inr b) ->
  lookup_result svc (b_accession_number b) = Some [] ->
  save_conflict svc = Some msg ->
  let acc := b_accession_number b in
  _sync_wikidata_artwork svc now a r
  = (Ok (ReturnPair ("Failed to upload: " +:+ acc +:+ "  " +:+ msg) None),
     record_call (editEntity (b_newitem b) (import_summary acc)) r).
Proof.
  unfold lookup_result. intros Hb Hl Hc. cbv zeta.
  unfold _sync_wikidata_artwork, sync_items. rewrite Hb, Hl.
  cbn [length]. rewrite decide_True by reflexivity.
  rewrite decide_False by discriminate.
  unfold bind at 1. unfold create, try_except at 1, bind at 1, item_editEntity.
  rewrite Hc. reflexivity.
Qed.

(** ** An unparsable lookup response *)

(** C6: when the response to the lookup query is not valid JSON, the routine
    returns [None], and it has issued no write call: the knowledge base is
    as it was. The lookup is made for the records the builder completes on:
    an accession number, a title that is not blank, a type of the table. *)
Theorem unparsable_lookup_aborts svc now a acc e r :
  accession_number a = Some acc ->
  clean_title (title a) <> "" ->
  entities_type !! type a = Some e ->
  lookup_result svc acc = None ->
  _sync_wikidata_artwork svc now a r = (Ok ReturnNone, r)
  /\ writes_of svc now a r = [].
Proof.
  intros Hacc Ht He Hl.
  destruct (build_inr now a acc e Hacc Ht He) as (b & Hb & _ & <- & _).
  pose proof (sync_unparsable svc now a b r Hb Hl) as H.
  split; [exact H|].
  apply (writes_of_log svc now a r _ _ [] H). now rewrite app_nil_r.
Qed.

Lemma unparsable_lookup_aborts_witness :
  _sync_wikidata_artwork unparsable today relief_1916 remote_with_item
  = (Ok ReturnNone, remote_with_item)
  /\ writes_of unparsable today relief_1916 remote_with_item = [].
Proof.
  apply (unparsable_lookup_aborts unparsable today relief_1916 "1916.1"
           (EStr "Q11060274"));
    [reflexivity | vm_compute; discriminate | reflexivity | reflexivity].
Defined.

(** C2 at a concrete record. *)
Lemma missing_accession_number_raises_witness :
  _sync_wikidata_artwork one_match today no_accession remote_with_item
  = (Raise (TypeError ("can only concatenate str (not " +:+ dq +:+ "KeyError"
                       +:+ dq +:+ ") to str")), remote_with_item)
  /\ writes_of one_match today no_accession remote_with_item = [].
Proof.
  apply (missing_accession_number_raises one_match today no_accession
           remote_with_item). reflexivity.
Defined.

(** ** The creation of a new item *)

(** C7 as stated fails: the item of a record without images is created,
    the Commons write that follows fails on the unset target, and the
    routine returns no item identifier. *)
Lemma create_counterexample :
  let res :=
    _sync_wikidata_artwork no_match today relief_without_images empty_remote in
  lookup_result no_match "1916.1" = Some []
  /\ is_Some (store res.2 !! "Q1")
  /\ (exists d s, log res.2 = [editEntity d s])
  /\ res.1
     = Ok (ReturnPair
             (upload_failed "1916.1" (attribute_error_text no_match)) None).
Proof.
  cbv zeta. split_all.
  - reflexivity.
  - vm_compute. eexists. reflexivity.
  - eexists _, _. vm_compute. reflexivity.
  - vm_compute. reflexivity.
Qed.

(** C7, as the code has it: with no match the routine creates the item; when
    the creation is accepted and the Commons write that follows succeeds, it
    returns the identifier of the new item; when that write fails on a
    missing field, it records the failure message, which ends with the text
    of the library's exception, and completes without raising, but returns
    no item identifier. The lookup is made for the records the builder
    completes on: an accession number, a title that is not blank, a type of
    the table. *)
Theorem create_branch svc now a acc e r :
  accession_number a = Some acc ->
  clean_title (title a) <> "" ->
  entities_type !! type a = Some e ->
  lookup_result svc acc = Some [] ->
  save_conflict svc = None ->
  exists b, build now a = Ok (inr b)
    /\ let qid := "Q" +:+ pretty (next_id r) in
       let r1 := do_editEntity qid (b_newitem b) (import_summary acc) r in
       _sync_wikidata_artwork svc now a r
       = match commons_ready a with
         | Some im =>
             (Ok (ReturnPair (uploaded acc qid) (Some (str_item qid))),
              do_addClaim qid (commons_json a im)
                (sync_summary "statement" acc) r1)
         | None =>
             (Ok (ReturnPair (upload_failed acc (attribute_error_text svc))
                    None), r1)
         end.
Proof.
  intros Hacc Ht He Hl Hc.
  destruct (build_inr now a acc e Hacc Ht He)
    as (b & Hb & _ & <- & _ & _ & _ & _ & _ & _ & _ & _ & _ & Hj & _).
  exists b. split; [exact Hb|].
  exact (sync_no_match svc now a b r Hb Hj Hl Hc).
Qed.

Lemma create_branch_witness :
  (_sync_wikidata_artwork no_match today relief_1916 empty_remote).1
  = Ok (ReturnPair "Uploaded: 1916.1 Item: [[wikidata:Q1]]"
          (Some "[[wikidata:Q1]]")).
Proof.
  destruct (create_branch no_match today relief_1916 "1916.1"
              (EStr "Q11060274") empty_remote eq_refl ltac:(vm_compute; discriminate) eq_refl eq_refl eq_refl)
    as (b & Hb & H).
  cbv zeta in H. rewrite H. reflexivity.
Defined.

(** ** The two descriptions *)

Lemma fixed_description_differs acc ty au :
  fixed_description acc <> make_description acc ty au.
Proof.
  unfold fixed_description, make_description.
  destruct (250 <? _)%nat; discriminate.
Qed.

Lemma editDescriptions_in_reconcile_writes a b q e q' d summary :
  editDescriptions q' d summary ∈ reconcile_writes a b q e
  <-> descriptions e !! "en" <> Some (b_description b)
      /\ q' = q /\ d = [("en", b_description b)]
      /\ summary = sync_summary "description" (b_accession_number b).
Proof.
  unfold reconcile_writes, label_writes, description_writes, commons_writes,
    statement_writes.
  rewrite !elem_of_app. split.
  - intros [H | [H | [H | H]]].
    + destruct (decide _); [now apply elem_of_nil in H|].
      apply list_elem_of_singleton in H. discriminate.
    + destruct (decide _) as [Hd|Hd]; [now apply elem_of_nil in H|].
      apply list_elem_of_singleton in H. injection H as -> -> ->.
      now split_all.
    + destruct (commons_due a e); [|now apply elem_of_nil in H].
      apply list_elem_of_singleton in H. discriminate.
    + apply list_elem_of_fmap in H as (j & H & _). discriminate.
  - intros (Hd & -> & -> & ->). right. left.
    rewrite decide_False by exact Hd. apply list_elem_of_here.
Qed.

(** C10: the description handed to the create-entity call is the fixed text
    "artwork in the Cleveland Museum of Art's collection
    (<accession_number>)", which is never the computed description; with no
    match that call is the first write call; with one match the routine
    overwrites the English description of the item exactly when it is not
    the computed description, and with the computed description. Both
    branches are reached for the records the builder completes on: an
    accession number, a title that is not blank, a type of the table. *)
Theorem create_and_reconcile_descriptions svc now a acc e r :
  accession_number a = Some acc ->
  clean_title (title a) <> "" ->
  entities_type !! type a = Some e ->
  exists b, build now a = Ok (inr b)
    /\ d_descriptions (b_newitem b) = [("en", fixed_description acc)]
    /\ fixed_description acc <> b_description b
    /\ (lookup_result svc acc = Some [] ->
        exists rest,
          writes_of svc now a r
          = editEntity (b_newitem b) (import_summary acc) :: rest)
    /\ (forall q e0,
          lookup_result svc acc = Some [q] ->
          store r !! q = Some e0 ->
          (descriptions e0 !! "en" <> Some (b_description b) ->
           editDescriptions q [("en", b_description b)]
             (sync_summary "description" acc) ∈ writes_of svc now a r)
          /\ (descriptions e0 !! "en" = Some (b_description b) ->
              forall q' d s, editDescriptions q' d s ∉ writes_of svc now a r)
          /\ (forall q' d s,
                editDescriptions q' d s ∈ writes_of svc now a r ->
                d = [("en", b_description b)])).
Proof.
  intros Hacc Ht He.
  destruct (build_inr now a acc e Hacc Ht He)
    as (b & Hb & _ & Ha & _ & _ & _ & Hd & _ & Hf & Hm & _ & _ & Hj & _).
  exists b. split; [exact Hb|]. split; [exact Hf|].
  split; [rewrite Hd; apply fixed_description_differs|].
  subst acc. split.
  - intros Hl. destruct (save_conflict svc) as [msg|] eqn:Hc.
    + exists []. eapply writes_of_log.
      * exact (sync_no_match_conflict svc now a b r msg Hb Hl Hc).
      * reflexivity.
    + pose proof (sync_no_match svc now a b r Hb Hj Hl Hc) as H. cbv zeta in H.
      destruct (commons_ready a) as [im|].
      * eexists. eapply writes_of_log; [exact H|].
        cbn [do_addClaim do_editEntity log]. rewrite <- app_assoc. reflexivity.
      * exists []. eapply writes_of_log; [exact H|]. reflexivity.
  - intros q e0 Hl He0.
    pose proof (sync_one_match svc now a b r q e0 Hb Hm Hj Hl He0) as H.
    pose proof (writes_of_log svc now a r _ _ _ H
                  (after_reconcile_log a b q e0 (start r))) as Hw.
    rewrite Hw. split_all.
    + intros Hne. apply editDescriptions_in_reconcile_writes. now split_all.
    + intros Heq q' d s Hin.
      apply editDescriptions_in_reconcile_writes in Hin as (Hne & _).
      contradiction.
    + intros q' d s Hin.
      now apply editDescriptions_in_reconcile_writes in Hin as (_ & _ & -> & _).
Qed.

Lemma create_and_reconcile_descriptions_witness :
  exists b, build today relief_1916 = Ok (inr b)
    /\ d_descriptions (b_newitem b)
       = [("en", "artwork in the Cleveland Museum of Art's collection (1916.1)")]
    /\ editDescriptions "Q42" [("en", "(1916.1) relief by unknown artist")]
         (sync_summary "description" "1916.1")
       ∈ writes_of one_match today relief_1916 remote_with_item.
Proof.
  destruct (create_and_reconcile_descriptions one_match today relief_1916
              "1916.1" (EStr "Q11060274") remote_with_item eq_refl ltac:(vm_compute; discriminate) eq_refl)
    as (b & Hb & Hf & _ & _ & H).
  exists b. split; [exact Hb|]. split; [exact Hf|].
  destruct (H "Q42" bare_item eq_refl eq_refl) as (Hin & _).
  assert (Hd : b_description b = "(1916.1) relief by unknown artist").
  { vm_compute in Hb. injection Hb as <-. reflexivity. }
  rewrite Hd in Hin. apply Hin. discriminate.
Defined.

(** ** Reconciling twice *)

Lemma synced_commons_not_due a b e : synced a b e -> commons_due a e = None.
Proof.
  intros (_ & _ & _ & Hc). unfold commons_due.
  destruct (commons_ready a) as [im|]; [|reflexivity].
  destruct (Hc ltac:(discriminate)) as [H|H].
  - now rewrite decide_False.
  - destruct (decide (claims e !! "P18" = None)); [|reflexivity].
    now rewrite decide_False.
Qed.

Lemma after_statements_present b q clms js s :
  (forall j, j ∈ js -> mainsnak j ∈ clms) ->
  after_statements b q clms js s = s.
Proof.
  revert s. induction js as [|j js IH]; intros s H; cbn [after_statements];
    [reflexivity|].
  unfold after_statement.
  rewrite decide_True by (apply H, list_elem_of_here).
  apply IH. intros j' Hj'. apply H. now apply list_elem_of_further.
Qed.

(** Reconciling a synchronised item changes nothing in the knowledge base. *)
Lemma synced_world a b q e s :
  synced a b e -> world (after_reconcile a b q e s) = world s.
Proof.
  intros Hs. pose proof (synced_commons_not_due a b e Hs) as Hc.
  destruct Hs as (Hl & Hd & Hsig & _).
  unfold after_reconcile. rewrite after_statements_present.
  - unfold after_commons, after_description, after_label. rewrite Hc.
    rewrite decide_True by exact Hd. rewrite decide_True by exact Hl.
    reflexivity.
  - intros j Hj. apply collect_clms_spec, Hsig. now apply list_elem_of_fmap_2.
Qed.

(** C1: when one item matches, a second run of the routine on the knowledge
    base the first run left issues no write call (no label edit, no
    description edit, no claim addition) and leaves the knowledge base as it
    is: after the first run the item has every claim it had before, and
    every main snak of the statement set is the main snak of one of its
    claims. The reconciliation is reached for the records the builder
    completes on: an accession number, a title that is not blank, a type of
    the table. *)
Theorem reconcile_twice svc now1 now2 a acc e r q e0 :
  accession_number a = Some acc ->
  clean_title (title a) <> "" ->
  entities_type !! type a = Some e ->
  lookup_result svc acc = Some [q] ->
  store r !! q = Some e0 ->
  exists b out1 r1 e1 out2,
    build now1 a = Ok (inr b)
    /\ _sync_wikidata_artwork svc now1 a r
       = (Ok (ReturnPair out1 (Some (str_item q))), r1)
    /\ store r1 !! q = Some e1
    /\ additive (claims e0) (claims e1)
    /\ (forall sn, sn ∈ map mainsnak (statement_set b) ->
                   sn ∈ collect_clms (claims e1))
    /\ _sync_wikidata_artwork svc now2 a r1
       = (Ok (ReturnPair out2 (Some (str_item q))), r1)
    /\ writes_of svc now2 a r1 = [].
Proof.
  intros Hacc Ht He Hl He0.
  destruct (build_inr now1 a acc e Hacc Ht He)
    as (b & Hb & Hcl & Ha & _ & _ & Hlab & Hdes & _ & _ & Hm & _ & Hms & Hj & _).
  destruct (build_inr now2 a acc e Hacc Ht He)
    as (b2 & Hb2 & Hcl2 & Ha2 & _ & _ & Hlab2 & Hdes2 & _ & _ & Hm2 & _ & Hms2
        & Hj2 & _).
  assert (Hl1 : lookup_result svc (b_accession_number b) = Some [q])
    by now rewrite Ha.
  assert (Hl2 : lookup_result svc (b_accession_number b2) = Some [q])
    by now rewrite Ha2.
  pose proof (sync_one_match svc now1 a b r q e0 Hb Hm Hj Hl1 He0) as H1.
  rewrite after_reconcile_item_return in H1.
  destruct (after_reconcile_ent a b q e0 (start r) He0)
    as (e1 & He1 & Hlb1 & Hd1 & Hadd & Hsig & Hcom).
  assert (Hsync : synced a b2 e1).
  { unfold synced. split_all.
    - now rewrite Hlab2, <- Hlab.
    - now rewrite Hdes2, <- Hdes.
    - intros sn Hsn. rewrite Hms2, Hcl2, <- Hcl, <- Hms in Hsn.
      apply list_elem_of_fmap in Hsn as (j & -> & Hin). now apply Hsig.
    - exact Hcom. }
  pose proof (sync_one_match svc now2 a b2 _ q e1 Hb2 Hm2 Hj2 Hl2 He1) as H2.
  rewrite after_reconcile_item_return in H2.
  rewrite (synced_world a b2 q e1 _ Hsync) in H2. cbn [world start] in H2.
  eexists b, _, _, e1, _. split_all.
  - exact Hb.
  - exact H1.
  - exact He1.
  - exact Hadd.
  - intros sn Hsn. apply collect_clms_spec.
    apply list_elem_of_fmap in Hsn as (j & -> & Hin). now apply Hsig.
  - exact H2.
  - apply (writes_of_log svc now2 a _ _ _ [] H2). now rewrite app_nil_r.
Qed.

Lemma reconcile_twice_witness :
  let r1 := (_sync_wikidata_artwork one_match today relief_1916
               remote_with_item).2 in
  length (writes_of one_match today relief_1916 remote_with_item) = 10
  /\ writes_of one_match next_day relief_1916 r1 = [].
Proof.
  cbv zeta. split; [vm_compute; reflexivity|].
  destruct (reconcile_twice one_match today next_day relief_1916 "1916.1"
              (EStr "Q11060274") remote_with_item "Q42" bare_item
              eq_refl ltac:(vm_compute; discriminate) eq_refl eq_refl eq_refl)
    as (b & out1 & r1 & e1 & out2 & _ & H1 & _ & _ & _ & _ & H2).
  rewrite H1. exact H2.
Defined.

(** * Further properties of the routine *)

(** ** The serialised statements *)

(** The statement set of a build, claim by claim. *)
Lemma build_statement_set now a acc e b :
  accession_number a = Some acc ->
  clean_title (title a) <> "" ->
  entities_type !! type a = Some e ->
  build now a = Ok (inr b) ->
  statement_set b = map (expected_json now a acc e) (claims_of a e).
Proof.
  intros Hacc Ht He.
  unfold build, claims_of, statement_set, expected_json, expected_mainsnak,
    expected_qualifiers, provenance_json.
  rewrite Hacc, He, (monolingual_text_ok _ Ht). clear Ht.
  generalize (author_string (creators a)) as au.
  generalize (clean_title (title a)) as ti. intros ti au.
  generalize (make_label ti) as la.
  generalize (make_description acc (type a) au) as de. intros de la.
  generalize (url a) as u. intros u.
  cbn [rbind].
  build_cases a e.
  all: match goal with
       | |- context [mapM (toJSON ?H) ?L] =>
           let r := eval vm_compute in (mapM (toJSON H) L) in
           replace (mapM (toJSON H) L) with r by (vm_compute; reflexivity);
           set (h := H)
       end.
  all: cbn [rbind].
  all: intros Hb; injection Hb as <-.
  all: reflexivity.
Qed.

(** X1: for a record with an accession number, a title that is not blank and
    a type of the table, the builder completes and the statement set starts
    with the same five claims, in this order: collection (P195, the museum),
    accession number (P217, qualified by the collection), instance of (P31,
    the fixed item type), title (P1476, the cleaned title in English) and
    reference URL (P973). *)
Theorem always_emitted_claims now a acc e :
  accession_number a = Some acc ->
  clean_title (title a) <> "" ->
  entities_type !! type a = Some e ->
  exists b, build now a = Ok (inr b)
    /\ take 5 (statement_set b)
       = [ {| cj_id := None;
              mainsnak := {| snak_property := "P195";
                             snak_datavalue := ItemPage "Q657415" |};
              cj_qualifiers := [];
              cj_references := [provenance_json now a] |};
           {| cj_id := None;
              mainsnak := {| snak_property := "P217";
                             snak_datavalue := Str acc |};
              cj_qualifiers :=
                [ {| snak_property := "P195";
                     snak_datavalue := ItemPage "Q657415" |} ];
              cj_references := [provenance_json now a] |};
           {| cj_id := None;
              mainsnak := {| snak_property := "P31";
                             snak_datavalue := ItemPage "Q18593264" |};
              cj_qualifiers := [];
              cj_references := [provenance_json now a] |};
           {| cj_id := None;
              mainsnak := {| snak_property := "P1476";
                             snak_datavalue :=
                               WbMonolingualText (clean_title (title a)) "en" |};
              cj_qualifiers := [];
              cj_references := [provenance_json now a] |};
           {| cj_id := None;
              mainsnak := {| snak_property := "P973";
                             snak_datavalue := Str (url a) |};
              cj_qualifiers := [];
              cj_references := [provenance_json now a] |} ].
Proof.
  intros Hacc Ht He.
  destruct (build_inr now a acc e Hacc Ht He) as (b & Hb & _).
  exists b. split; [exact Hb|].
  rewrite (build_statement_set now a acc e b Hacc Ht He Hb).
  unfold claims_of. rewrite map_app. reflexivity.
Qed.

Lemma always_emitted_claims_witness :
  exists b, build today relief_1916 = Ok (inr b)
    /\ map (fun j => snak_property (mainsnak j)) (take 5 (statement_set b))
       = ["P195"; "P217"; "P31"; "P1476"; "P973"].
Proof.
  destruct (always_emitted_claims today relief_1916 "1916.1" (EStr "Q11060274")
              eq_refl ltac:(vm_compute; discriminate) eq_refl) as (b & Hb & H).
  exists b. split; [exact Hb|]. rewrite H. reflexivity.
Defined.

Lemma filter_property_claims now a acc e p :
  filter (fun j => snak_property (mainsnak j) = p)
    (map (expected_json now a acc e) (claims_of a e))
  = map (expected_json now a acc e)
      (filter (fun c => pid (init_heap c) = p) (claims_of a e)).
Proof.
  induction (claims_of a e) as [|c l IH]; [reflexivity|].
  cbn [map]. rewrite !filter_cons. cbn [expected_json mainsnak expected_mainsnak
                                          snak_property].
  destruct (decide (pid (init_heap c) = p)); cbn [map]; now rewrite IH.
Qed.

Lemma copyright_claims a e :
  filter (fun c => pid (init_heap c) = "P6216") (claims_of a e)
  = if decide (share_license_status a = "Copyrighted"
               \/ share_license_status a = "CC0")
    then [copyright_prop] else [].
Proof.
  unfold claims_of.
  destruct (decide (creation_date_earliest a = creation_date_latest a));
    destruct (truthy_int (creation_date_earliest a));
    destruct (decide (share_license_status a = "Copyrighted"
                      \/ share_license_status a = "CC0"));
    destruct e as [s|d]; try destruct (decide (s <> ""));
    reflexivity.
Qed.

(** X2: for a record with an accession number, a title that is not blank and
    a type of the table, the statement set holds a copyright-status claim
    (P6216) exactly when the license status is "Copyrighted" or "CC0", and
    then exactly one: its value is Q50423863 for "Copyrighted" and Q19652
    for "CC0", and it is qualified by the determination method (P459,
    Q61848113). For any other status there is none. *)
Theorem copyright_claim now a acc e :
  accession_number a = Some acc ->
  clean_title (title a) <> "" ->
  entities_type !! type a = Some e ->
  exists b, build now a = Ok (inr b)
    /\ filter (fun j => snak_property (mainsnak j) = "P6216") (statement_set b)
       = if decide (share_license_status a = "Copyrighted"
                    \/ share_license_status a = "CC0")
         then [ {| cj_id := None;
                   mainsnak :=
                     {| snak_property := "P6216";
                        snak_datavalue :=
                          if decide (share_license_status a = "CC0")
                          then ItemPage "Q19652" else ItemPage "Q50423863" |};
                   cj_qualifiers :=
                     [ {| snak_property := "P459";
                          snak_datavalue := ItemPage "Q61848113" |} ];
                   cj_references := [provenance_json now a] |} ]
         else [].
Proof.
  intros Hacc Ht He.
  destruct (build_inr now a acc e Hacc Ht He) as (b & Hb & _).
  exists b. split; [exact Hb|].
  rewrite (build_statement_set now a acc e b Hacc Ht He Hb).
  rewrite filter_property_claims, copyright_claims.
  destruct (decide _); reflexivity.
Qed.

Lemma copyright_claim_witness :
  exists b, build today relief_1916 = Ok (inr b)
    /\ map (fun j => snak_datavalue (mainsnak j))
         (filter (fun j => snak_property (mainsnak j) = "P6216")
            (statement_set b))
       = [ItemPage "Q19652"].
Proof.
  destruct (copyright_claim today relief_1916 "1916.1" (EStr "Q11060274")
              eq_refl ltac:(vm_compute; discriminate) eq_refl) as (b & Hb & H).
  exists b. split; [exact Hb|]. rewrite H. reflexivity.
Defined.

(** X3: every claim of the statement set is serialised without claim
    identifier and with exactly one reference, made of the record's URL
    (P854) and the date of the run (P813, year, month and day). *)
Theorem every_claim_is_referenced now a b :
  build now a = Ok (inr b) ->
  Forall (fun j => cj_id j = None /\ cj_references j = [provenance_json now a])
    (statement_set b).
Proof.
  intros Hb. destruct (build_inr_inv now a b Hb) as (acc & e & Hacc & Ht & He).
  rewrite (build_statement_set now a acc e b Hacc Ht He Hb).
  apply Forall_fmap, Forall_forall. intros c _. split; reflexivity.
Qed.

Lemma every_claim_is_referenced_witness :
  exists b, build today relief_1916 = Ok (inr b)
    /\ Forall (fun j => cj_id j = None
                        /\ cj_references j = [provenance_json today relief_1916])
         (statement_set b).
Proof.
  eexists. split; [vm_compute; reflexivity|].
  apply (every_claim_is_referenced today relief_1916).
  vm_compute. reflexivity.
Defined.

(** ** What the routine returns *)

Lemma build_never_early now a out : build now a <> Ok (inl out).
Proof.
  intros H. destruct (accession_number a) as [acc|] eqn:Hacc.
  - destruct (decide (clean_title (title a) = "")) as [Ht|Ht].
    + rewrite (build_blank_title now a acc Hacc Ht) in H. discriminate.
    + destruct (entities_type !! type a) as [e|] eqn:He.
      * destruct (build_inr now a acc e Hacc Ht He) as (b & Hb & _). congruence.
      * rewrite (build_unknown_type now a acc Hacc Ht He) in H. discriminate.
  - rewrite (build_no_accession now a Hacc) in H. discriminate.
Qed.

Lemma sync_items_shape svc a b s :
  match (sync_items svc a b s).1 with
  | Ok (ReturnOutput _) => False
  | Ok ReturnNone =>
      json_loads svc (requests_get svc (query_url (b_accession_number b))) = None
  | Ok (ReturnPair _ _) =>
      json_loads svc (requests_get svc (query_url (b_accession_number b))) <> None
  | Raise _ =>
      json_loads svc (requests_get svc (query_url (b_accession_number b))) <> None
  end.
Proof.
  unfold sync_items.
  destruct (json_loads svc _) as [bindings|]; [|reflexivity].
  unfold bind at 1.
  destruct ((if decide (length bindings = 0) then create svc b else ret tt) s)
    as [[[]|x] s1]; [|discriminate].
  unfold bind at 1.
  destruct ((if decide (length bindings = 1)
             then reconcile svc a b (default "" (head bindings)) else ret tt) s1)
    as [[[]|x] s2]; discriminate.
Qed.

(** X4: the routine never returns the bare message string that the handler
    of the missing key was written to return: it raises, or returns [None]
    (exactly when the lookup response does not parse, among the runs that
    return), or returns the pair of the message and the item. *)
Theorem never_returns_bare_message svc now a r :
  match (_sync_wikidata_artwork svc now a r).1 with
  | Ok (ReturnOutput _) => False
  | Ok ReturnNone =>
      exists acc, accession_number a = Some acc /\ lookup_result svc acc = None
  | Ok (ReturnPair _ _) =>
      exists acc bindings,
        accession_number a = Some acc
        /\ lookup_result svc acc = Some bindings
  | Raise _ => True
  end.
Proof.
  unfold _sync_wikidata_artwork.
  destruct (build now a) as [[out|b]|x] eqn:Hb.
  - now apply build_never_early in Hb.
  - destruct (build_inr_inv now a b Hb) as (acc & e & Hacc & Ht & He).
    destruct (build_inr now a acc e Hacc Ht He) as (b' & Hb' & _ & Ha & _).
    rewrite Hb in Hb'. injection Hb' as <-.
    pose proof (sync_items_shape svc a b
                  {| world := r; output := ""; item_return := None |}) as H.
    destruct (sync_items svc a b _) as [[[out| |out item]|x] s];
      cbn [fst] in *; rewrite ?Ha in H.
    + exact H.
    + exists acc. split; [exact Hacc | exact H].
    + unfold lookup_result.
      destruct (json_loads svc _) as [bindings|] eqn:Hj; [|contradiction].
      exists acc, bindings. split; [exact Hacc | exact Hj].
    + exact I.
  - exact I.
Qed.

(** ** More than one match, and a rejected creation *)

(** X5: when the lookup, made for a record with an accession number, a title
    that is not blank and a type of the table, returns two or more matches,
    the routine does nothing: it returns the empty message and no item, and
    the knowledge base is as it was. *)
Theorem several_matches_do_nothing svc now a acc e r bindings :
  accession_number a = Some acc ->
  clean_title (title a) <> "" ->
  entities_type !! type a = Some e ->
  lookup_result svc acc = Some bindings ->
  2 <= length bindings ->
  _sync_wikidata_artwork svc now a r = (Ok (ReturnPair "" None), r)
  /\ writes_of svc now a r = [].
Proof.
  intros Hacc Ht He Hl Hn.
  destruct (build_inr now a acc e Hacc Ht He) as (b & Hb & _ & Ha & _).
  assert (H : _sync_wikidata_artwork svc now a r = (Ok (ReturnPair "" None), r)).
  { unfold _sync_wikidata_artwork, sync_items. unfold lookup_result in Hl.
    rewrite Hb, Ha, Hl.
    rewrite decide_False by lia. rewrite decide_False by lia. reflexivity. }
  split; [exact H|].
  apply (writes_of_log svc now a r _ _ [] H). now rewrite app_nil_r.
Qed.

Lemma several_matches_do_nothing_witness :
  _sync_wikidata_artwork two_matches today relief_1916 remote_with_item
  = (Ok (ReturnPair "" None), remote_with_item)
  /\ writes_of two_matches today relief_1916 remote_with_item = [].
Proof.
  apply (several_matches_do_nothing two_matches today relief_1916 "1916.1"
           (EStr "Q11060274") remote_with_item ["Q42"; "Q43"]);
    [reflexivity | vm_compute; discriminate | reflexivity | reflexivity
    | cbn; lia].
Defined.

(** X6: for a record with an accession number, a title that is not blank and
    a type of the table, and no match: when the knowledge base rejects the
    creation of the item, the routine issues that one create-entity call and
    no other write, stores nothing, and returns the failure message "Failed
    to upload: <accession_number> <error>" with no item. *)
Theorem rejected_creation svc now a acc e r msg :
  accession_number a = Some acc ->
  clean_title (title a) <> "" ->
  entities_type !! type a = Some e ->
  lookup_result svc acc = Some [] ->
  save_conflict svc = Some msg ->
  exists b r', build now a = Ok (inr b)
    /\ _sync_wikidata_artwork svc now a r
       = (Ok (ReturnPair ("Failed to upload: " +:+ acc +:+ "  " +:+ msg) None),
          r')
    /\ store r' = store r
    /\ writes_of svc now a r = [editEntity (b_newitem b) (import_summary acc)].
Proof.
  intros Hacc Ht He Hl Hc.
  destruct (build_inr now a acc e Hacc Ht He) as (b & Hb & _ & Ha & _).
  subst acc.
  pose proof (sync_no_match_conflict svc now a b r msg Hb Hl Hc) as H.
  cbv zeta in H. eexists b, _. split_all.
  - exact Hb.
  - exact H.
  - reflexivity.
  - apply (writes_of_log svc now a r _ _ _ H). reflexivity.
Qed.

Lemma rejected_creation_witness :
  (_sync_wikidata_artwork rejecting today relief_1916 empty_remote).1
  = Ok (ReturnPair "Failed to upload: 1916.1  Edit conflict" None)
  /\ store (_sync_wikidata_artwork rejecting today relief_1916 empty_remote).2
     = ∅.
Proof.
  destruct (rejected_creation rejecting today relief_1916 "1916.1"
              (EStr "Q11060274") empty_remote "Edit conflict"
              eq_refl ltac:(vm_compute; discriminate) eq_refl eq_refl eq_refl)
    as (b & r' & _ & H & Hs & _).
  rewrite H. split; [reflexivity | exact Hs].
Defined.

(** ** The write calls of a reconciliation, in full *)

(** One match: the write calls and the knowledge base the run leaves. *)
Lemma one_match_writes svc now a acc e r q e0 :
  accession_number a = Some acc ->
  clean_title (title a) <> "" ->
  entities_type !! type a = Some e ->
  lookup_result svc acc = Some [q] ->
  store r !! q = Some e0 ->
  exists b, build now a = Ok (inr b)
    /\ b_accession_number b = acc
    /\ writes_of svc now a r = reconcile_writes a b q e0
    /\ (_sync_wikidata_artwork svc now a r).2
       = world (after_reconcile a b q e0 (start r)).
Proof.
  intros Hacc Ht He Hl He0.
  destruct (build_inr now a acc e Hacc Ht He)
    as (b & Hb & _ & Ha & _ & _ & _ & _ & _ & _ & Hm & _ & _ & Hj & _).
  exists b. split; [exact Hb|]. split; [exact Ha|]. subst acc.
  pose proof (sync_one_match svc now a b r q e0 Hb Hm Hj Hl He0) as H.
  split; [|now rewrite H].
  exact (writes_of_log svc now a r _ _ _ H
           (after_reconcile_log a b q e0 (start r))).
Qed.

(** X7: for a record with an accession number, a title that is not blank and
    a type of the table, and one match, the write calls of a run are, in
    this order: the label edit when the English label is absent or not the
    computed one, the description edit when the English description is
    absent or not the computed one, the Commons claim when it is due, and
    one claim addition for each claim of the statement set whose main snak
    is not among the main snaks collected from the item, in the order of the
    statement set. *)
Theorem reconcile_write_calls svc now a acc e r q e0 :
  accession_number a = Some acc ->
  clean_title (title a) <> "" ->
  entities_type !! type a = Some e ->
  lookup_result svc acc = Some [q] ->
  store r !! q = Some e0 ->
  exists b, build now a = Ok (inr b)
    /\ writes_of svc now a r
       = (if decide (labels e0 !! "en" = Some (b_label b)) then []
          else [editLabels q [("en", b_label b)] (sync_summary "label" acc)])
         ++ (if decide (descriptions e0 !! "en" = Some (b_description b)) then []
             else [editDescriptions q [("en", b_description b)]
                     (sync_summary "description" acc)])
         ++ match commons_due a e0 with
            | Some im => [addClaim q (commons_json a im)
                            (sync_summary "statement" acc)]
            | None => []
            end
         ++ map (fun j => addClaim q j (sync_summary "statement" acc))
              (filter (fun j => mainsnak j ∉ collect_clms (claims e0))
                 (statement_set b)).
Proof.
  intros Hacc Ht He Hl He0.
  destruct (one_match_writes svc now a acc e r q e0 Hacc Ht He Hl He0)
    as (b & Hb & <- & Hw & _).
  exists b. split; [exact Hb | exact Hw].
Qed.

Lemma reconcile_write_calls_witness :
  map (fun w => match w with
                | editEntity _ _ => "create"
                | editLabels _ _ _ => "label"
                | editDescriptions _ _ _ => "description"
                | addClaim _ j _ => snak_property (mainsnak j)
                end)
    (writes_of one_match today relief_1916 remote_with_item)
  = ["label"; "description"; "P4765"; "P195"; "P217"; "P31"; "P1476"; "P973";
     "P6216"; "P31"].
Proof.
  destruct (reconcile_write_calls one_match today relief_1916 "1916.1"
              (EStr "Q11060274") remote_with_item "Q42" bare_item
              eq_refl ltac:(vm_compute; discriminate) eq_refl eq_refl eq_refl) as (b & Hb & H).
  rewrite H. vm_compute in Hb. injection Hb as <-. vm_compute. reflexivity.
Defined.

(** X8: for a record with an accession number, a title that is not blank and
    a type of the table, and one match, the routine overwrites the English
    label of the item exactly when it is absent or not the computed label,
    and with the computed label; it issues no other label edit. *)
Theorem label_is_synchronised svc now a acc e r q e0 :
  accession_number a = Some acc ->
  clean_title (title a) <> "" ->
  entities_type !! type a = Some e ->
  lookup_result svc acc = Some [q] ->
  store r !! q = Some e0 ->
  exists b, build now a = Ok (inr b)
    /\ (labels e0 !! "en" <> Some (b_label b) ->
        editLabels q [("en", b_label b)] (sync_summary "label" acc)
        ∈ writes_of svc now a r)
    /\ (labels e0 !! "en" = Some (b_label b) ->
        forall q' d s, editLabels q' d s ∉ writes_of svc now a r)
    /\ (forall q' d s,
          editLabels q' d s ∈ writes_of svc now a r ->
          q' = q /\ d = [("en", b_label b)]).
Proof.
  intros Hacc Ht He Hl He0.
  destruct (one_match_writes svc now a acc e r q e0 Hacc Ht He Hl He0)
    as (b & Hb & <- & Hw & _).
  exists b. split; [exact Hb|]. rewrite Hw.
  assert (Hin : forall q' d s,
            editLabels q' d s ∈ reconcile_writes a b q e0
            -> labels e0 !! "en" <> Some (b_label b)
               /\ q' = q /\ d = [("en", b_label b)]).
  { intros q' d s.
    unfold reconcile_writes, label_writes, description_writes, commons_writes,
      statement_writes.
    rewrite !elem_of_app. intros [H | [H | [H | H]]].
    - destruct (decide _) as [Hd|Hd]; [now apply elem_of_nil in H|].
      apply list_elem_of_singleton in H. injection H as -> -> ->. now split_all.
    - destruct (decide _); [now apply elem_of_nil in H|].
      apply list_elem_of_singleton in H. discriminate.
    - destruct (commons_due a e0); [|now apply elem_of_nil in H].
      apply list_elem_of_singleton in H. discriminate.
    - apply list_elem_of_fmap in H as (j & H & _). discriminate. }
  split_all.
  - intros Hne. unfold reconcile_writes, label_writes.
    apply elem_of_app. left. rewrite decide_False by exact Hne.
    apply list_elem_of_here.
  - intros Heq q' d s H. apply Hin in H as (Hne & _). contradiction.
  - intros q' d s H. apply Hin in H as (_ & -> & ->). now split.
Qed.

Lemma label_is_synchronised_witness :
  editLabels "Q42" [("en", "Relief of a Woman")] (sync_summary "label" "1916.1")
  ∈ writes_of one_match today relief_1916 remote_with_item.
Proof.
  destruct (label_is_synchronised one_match today relief_1916 "1916.1"
              (EStr "Q11060274") remote_with_item "Q42" bare_item
              eq_refl ltac:(vm_compute; discriminate) eq_refl eq_refl eq_refl) as (b & Hb & Hin & _).
  assert (Hl : b_label b = "Relief of a Woman").
  { vm_compute in Hb. injection Hb as <-. reflexivity. }
  rewrite Hl in Hin. apply Hin. discriminate.
Defined.

(** ** The claims a reconciliation adds *)

Lemma no_type_is_the_instance t s :
  entities_type !! t = Some (EStr s) -> s <> "Q18593264".
Proof.
  intros H Hs. subst s. apply elem_of_map_to_list in H.
  assert (Hall : Forall (fun p : string * entry => p.2 <> EStr "Q18593264")
                   (map_to_list entities_type)).
  { apply (bool_decide_unpack _). vm_compute. exact I. }
  rewrite Forall_forall in Hall. now apply (Hall _ H).
Qed.

Lemma statement_snaks_distinct a acc e :
  entities_type !! type a = Some e ->
  NoDup (map (expected_mainsnak a acc e) (claims_of a e)).
Proof.
  intros He. unfold claims_of, expected_mainsnak.
  assert (Hi : forall s, e = EStr s -> s <> "Q18593264").
  { intros s ->. now apply (no_type_is_the_instance (type a)). }
  clear He.
  destruct (decide (creation_date_earliest a = creation_date_latest a));
    destruct (truthy_int (creation_date_earliest a));
    destruct (decide (share_license_status a = "Copyrighted"
                      \/ share_license_status a = "CC0"));
    destruct e as [s|d]; try destruct (decide (s <> ""));
    cbn [app map];
    repeat (apply NoDup_cons; split;
            [rewrite ?elem_of_cons, elem_of_nil; intros H;
             repeat (destruct H as [H|H]; [try discriminate H|]);
             try contradiction;
             try (injection H as H; symmetry in H; now apply (Hi s eq_refl))
            |]);
    apply NoDup_nil_2.
Qed.

Lemma statement_properties now a acc e j :
  j ∈ map (expected_json now a acc e) (claims_of a e) ->
  snak_property (mainsnak j) <> "P4765".
Proof.
  intros Hj Hp.
  apply list_elem_of_fmap in Hj as (c & -> & Hc).
  destruct (commons_not_in_claims a e) as [_ Hz].
  apply length_zero_iff_nil in Hz.
  apply (filter_nil_not_elem_of _ _ (pid (init_heap c)) Hz Hp).
  now apply (list_elem_of_fmap_2 (fun c => pid (init_heap c))).
Qed.

Lemma added_snaks_app ws1 ws2 :
  added_snaks (ws1 ++ ws2) = added_snaks ws1 ++ added_snaks ws2.
Proof. unfold added_snaks. apply omap_app. Qed.

Lemma added_snaks_statements b q clms js :
  added_snaks (statement_writes b q clms js)
  = map mainsnak (filter (fun j => mainsnak j ∉ clms) js).
Proof.
  unfold statement_writes, added_snaks.
  induction (filter _ js) as [|j l IH]; [reflexivity|].
  cbn. now rewrite <- IH.
Qed.

Lemma NoDup_map_filter {A B} (f : A -> B) (P : A -> Prop)
    `{forall x, Decision (P x)} (l : list A) :
  NoDup (map f l) -> NoDup (map f (filter P l)).
Proof.
  induction l as [|x l IH]; intros Hn; [constructor|].
  cbn [map] in Hn. apply NoDup_cons in Hn as [Hx Hn].
  rewrite filter_cons. destruct (decide (P x)); [|now apply IH].
  cbn [map]. apply NoDup_cons. split; [|now apply IH].
  intros Hin. apply Hx. apply list_elem_of_fmap in Hin as (y & -> & Hy).
  apply list_elem_of_fmap_2. now apply list_elem_of_filter in Hy as [_ Hy].
Qed.

(** X9: with one match, no two claims that a run adds have the same main
    snak, and apart from the Commons claim no added claim has a main snak
    that a claim of the item already had. *)
Theorem claims_are_added_once svc now a acc e r q e0 :
  accession_number a = Some acc ->
  entities_type !! type a = Some e ->
  lookup_result svc acc = Some [q] ->
  store r !! q = Some e0 ->
  NoDup (added_snaks (writes_of svc now a r))
  /\ (forall sn, sn ∈ added_snaks (writes_of svc now a r) ->
                 snak_property sn <> "P4765" ->
                 ~ has_sig (claims e0) sn).
Proof.
  intros Hacc He Hl He0.
  destruct (decide (clean_title (title a) = "")) as [Hblank|Ht].
  { pose proof (sync_blank_title svc now a acc r Hacc Hblank) as H.
    rewrite (writes_of_log svc now a r _ _ [] H) by now rewrite app_nil_r.
    cbn. split; [constructor|]. intros sn Hsn. now apply elem_of_nil in Hsn. }
  destruct (one_match_writes svc now a acc e r q e0 Hacc Ht He Hl He0)
    as (b & Hb & _ & Hw & _).
  rewrite Hw. pose proof (build_statement_set now a acc e b Hacc Ht He Hb) as Hs.
  unfold reconcile_writes. rewrite !added_snaks_app, added_snaks_statements.
  assert (Hl0 : added_snaks (label_writes b q e0) = [])
    by (unfold label_writes; now destruct (decide _)).
  assert (Hd0 : added_snaks (description_writes b q e0) = [])
    by (unfold description_writes; now destruct (decide _)).
  rewrite Hl0, Hd0. cbn [app].
  assert (Hst : NoDup (map mainsnak
                         (filter (fun j => mainsnak j ∉ collect_clms (claims e0))
                            (statement_set b)))).
  { apply NoDup_map_filter. rewrite Hs, <- list_fmap_compose.
    exact (statement_snaks_distinct a acc e He). }
  assert (Hin : forall sn,
            sn ∈ map mainsnak
                   (filter (fun j => mainsnak j ∉ collect_clms (claims e0))
                      (statement_set b)) ->
            snak_property sn <> "P4765" /\ ~ has_sig (claims e0) sn).
  { intros sn H. apply list_elem_of_fmap in H as (j & -> & Hj).
    apply list_elem_of_filter in Hj as [Hn Hj]. split.
    - rewrite Hs in Hj. exact (statement_properties now a acc e j Hj).
    - intros Hh. apply Hn. now apply collect_clms_spec. }
  unfold commons_writes. destruct (commons_due a e0) as [im|]; cbn.
  - split.
    + apply NoDup_cons. split; [|exact Hst].
      intros H. now apply Hin in H as [H _].
    + intros sn H Hp. apply elem_of_cons in H as [-> | H]; [now contradiction Hp|].
      now apply Hin in H as [_ H].
  - split; [exact Hst|]. intros sn H _. now apply Hin in H as [_ H].
Qed.

Lemma claims_are_added_once_witness :
  NoDup (added_snaks (writes_of one_match today relief_1916 remote_with_item))
  /\ length (added_snaks (writes_of one_match today relief_1916 remote_with_item))
     = 8.
Proof.
  split; [|vm_compute; reflexivity].
  apply (claims_are_added_once one_match today relief_1916 "1916.1"
           (EStr "Q11060274") remote_with_item "Q42" bare_item);
    reflexivity.
Defined.

(** X10: for a record with an accession number, a title that is not blank
    and a type of the table, and one match, the Commons claim is added
    exactly when it is due: for a CC0 record with a print image URL and an
    item that has neither a P18 nor a P4765 claim; it is then the claim of
    the print image URL with its six qualifiers, and no other added claim is
    a P4765 claim. *)
Theorem commons_claim_is_added_when_due svc now a acc e r q e0 :
  accession_number a = Some acc ->
  clean_title (title a) <> "" ->
  entities_type !! type a = Some e ->
  lookup_result svc acc = Some [q] ->
  store r !! q = Some e0 ->
  (forall im,
     share_license_status a = "CC0" -> images a = Some im ->
     claims e0 !! "P18" = None -> claims e0 !! "P4765" = None ->
     addClaim q (commons_json a im) (sync_summary "statement" acc)
     ∈ writes_of svc now a r)
  /\ (forall q' j s,
        addClaim q' j s ∈ writes_of svc now a r ->
        snak_property (mainsnak j) = "P4765" ->
        share_license_status a = "CC0"
        /\ claims e0 !! "P18" = None /\ claims e0 !! "P4765" = None
        /\ exists im, images a = Some im /\ j = commons_json a im).
Proof.
  intros Hacc Ht He Hl He0.
  destruct (one_match_writes svc now a acc e r q e0 Hacc Ht He Hl He0)
    as (b & Hb & <- & Hw & _).
  rewrite Hw. pose proof (build_statement_set now a _ e b Hacc Ht He Hb) as Hs.
  unfold reconcile_writes, commons_writes, commons_due, commons_ready. split.
  - intros im H1 H2 H3 H4. rewrite !elem_of_app. right. right. left.
    rewrite decide_True, H2 by exact H1.
    rewrite decide_True by exact H3. rewrite decide_True by exact H4.
    apply list_elem_of_here.
  - intros q' j s. rewrite !elem_of_app. intros [H | [H | [H | H]]] Hp.
    + unfold label_writes in H.
      destruct (decide _); [now apply elem_of_nil in H|].
      apply list_elem_of_singleton in H. discriminate.
    + unfold description_writes in H.
      destruct (decide _); [now apply elem_of_nil in H|].
      apply list_elem_of_singleton in H. discriminate.
    + destruct (decide (share_license_status a = "CC0")) as [Hc|Hc];
        [|now apply elem_of_nil in H].
      destruct (images a) as [im|]; [|now apply elem_of_nil in H].
      destruct (decide (claims e0 !! "P18" = None)) as [H18|H18];
        [|now apply elem_of_nil in H].
      destruct (decide (claims e0 !! "P4765" = None)) as [H47|H47];
        [|now apply elem_of_nil in H].
      apply list_elem_of_singleton in H. injection H as -> -> ->.
      split_all; try assumption. now exists im.
    + unfold statement_writes in H.
      apply list_elem_of_fmap in H as (j' & H & Hj'). injection H as -> <- ->.
      apply list_elem_of_filter in Hj' as [_ Hj']. rewrite Hs in Hj'.
      now apply statement_properties in Hj'.
Qed.

Lemma commons_claim_is_added_when_due_witness :
  exists j s,
    addClaim "Q42" j s ∈ writes_of one_match today relief_1916 remote_with_item
    /\ mainsnak j
       = {| snak_property := "P4765";
            snak_datavalue :=
              Str "https://openaccess-cdn.clevelandart.org/1916.1/1916.1_print.jpg" |}.
Proof.
  destruct (commons_claim_is_added_when_due one_match today relief_1916
              "1916.1" (EStr "Q11060274") remote_with_item "Q42" bare_item
              eq_refl ltac:(vm_compute; discriminate) eq_refl eq_refl eq_refl) as [H _].
  eexists _, _. split; [apply H; reflexivity | reflexivity].
Defined.

(** ** What a reconciliation leaves alone *)

Lemma after_label_frame b q e s :
  ent s q e ->
  (forall q', q' <> q ->
     store (world (after_label b q e s)) !! q' = store (world s) !! q')
  /\ exists e', ent (after_label b q e s) q e'
       /\ (forall lang, lang <> "en" -> labels e' !! lang = labels e !! lang)
       /\ descriptions e' = descriptions e /\ claims e' = claims e.
Proof.
  unfold ent, after_label. intros H.
  destruct (decide (labels e !! "en" = Some (b_label b))).
  - split; [reflexivity|]. exists e. now split_all.
  - split.
    + intros q' Hq. cbn. now rewrite lookup_alter_ne.
    + eexists. split; [cbn [world]; apply ent_do_editLabels; exact H|].
      cbn. split_all; try reflexivity.
      intros lang Hn. now rewrite lookup_insert_ne.
Qed.

Lemma after_description_frame b q e e1 s :
  ent s q e1 ->
  (forall q', q' <> q ->
     store (world (after_description b q e s)) !! q' = store (world s) !! q')
  /\ exists e', ent (after_description b q e s) q e'
       /\ labels e' = labels e1
       /\ (forall lang, lang <> "en" ->
             descriptions e' !! lang = descriptions e1 !! lang)
       /\ claims e' = claims e1.
Proof.
  unfold ent, after_description. intros H.
  destruct (decide (descriptions e !! "en" = Some (b_description b))).
  - split; [reflexivity|]. exists e1. now split_all.
  - split.
    + intros q' Hq. cbn. now rewrite lookup_alter_ne.
    + eexists. split; [cbn [world]; apply ent_do_editDescriptions; exact H|].
      cbn. split_all; try reflexivity.
      intros lang Hn. now rewrite lookup_insert_ne.
Qed.

Lemma after_commons_others a b q e s q' :
  q' <> q ->
  store (world (after_commons a b q e s)) !! q' = store (world s) !! q'.
Proof.
  intros Hq. unfold after_commons. destruct (commons_due a e); [|reflexivity].
  cbn. now rewrite lookup_alter_ne.
Qed.

Lemma after_statements_others b q clms js s q' :
  q' <> q ->
  store (world (after_statements b q clms js s)) !! q' = store (world s) !! q'.
Proof.
  intros Hq. revert s. induction js as [|j js IH]; intros s;
    cbn [after_statements]; [reflexivity|].
  rewrite IH. unfold after_statement. destruct (decide _); [reflexivity|].
  cbn. now rewrite lookup_alter_ne.
Qed.

Lemma after_reconcile_frame a b q e s :
  ent s q e ->
  (forall q', q' <> q ->
     store (world (after_reconcile a b q e s)) !! q' = store (world s) !! q')
  /\ exists e', ent (after_reconcile a b q e s) q e'
       /\ (forall lang, lang <> "en" ->
             labels e' !! lang = labels e !! lang
             /\ descriptions e' !! lang = descriptions e !! lang)
       /\ additive (claims e) (claims e').
Proof.
  intros He. unfold after_reconcile.
  set (s1 := {| world := world s; output := _; item_return := _ |}).
  assert (He1 : ent s1 q e) by exact He.
  destruct (after_label_frame b q e s1 He1)
    as (Ho2 & e2 & He2 & Hl2 & Hd2 & Hc2).
  destruct (after_description_frame b q e e2 _ He2)
    as (Ho3 & e3 & He3 & Hl3 & Hd3 & Hc3).
  assert (Hc : claims e3 = claims e) by congruence.
  destruct (after_commons_ent a b q e e3 _ He3 Hc)
    as (e4 & He4 & Hl4 & Hd4 & Ha4 & _).
  destruct (after_statements_ent b q (collect_clms (claims e)) (statement_set b)
              e4 _ He4) as (e5 & He5 & Hl5 & Hd5 & Ha5 & _).
  split.
  - intros q' Hq. rewrite after_statements_others, after_commons_others by exact Hq.
    rewrite Ho3, Ho2 by exact Hq. reflexivity.
  - exists e5. split_all.
    + exact He5.
    + intros lang Hn. rewrite Hl5, Hl4, Hl3, Hd5, Hd4.
      split; [now apply Hl2 | ]. rewrite <- Hd2. now apply Hd3.
    + rewrite <- Hc. eapply additive_trans; eassumption.
Qed.

(** X11: with one match, a run changes the matched item only: every other
    item of the knowledge base is as it was, the labels and descriptions of
    the item in languages other than English are as they were, and every
    claim the item had is still there, in its place. *)
Theorem reconcile_touches_one_item svc now a acc e r q e0 :
  accession_number a = Some acc ->
  entities_type !! type a = Some e ->
  lookup_result svc acc = Some [q] ->
  store r !! q = Some e0 ->
  let r1 := (_sync_wikidata_artwork svc now a r).2 in
  (forall q', q' <> q -> store r1 !! q' = store r !! q')
  /\ exists e1, store r1 !! q = Some e1
       /\ (forall lang, lang <> "en" ->
             labels e1 !! lang = labels e0 !! lang
             /\ descriptions e1 !! lang = descriptions e0 !! lang)
       /\ additive (claims e0) (claims e1).
Proof.
  intros Hacc He Hl He0. cbv zeta.
  destruct (decide (clean_title (title a) = "")) as [Hblank|Ht].
  { rewrite (sync_blank_title svc now a acc r Hacc Hblank). cbn [snd].
    split; [reflexivity|]. exists e0. split_all.
    - exact He0.
    - intros lang _. split; reflexivity.
    - apply additive_refl. }
  destruct (one_match_writes svc now a acc e r q e0 Hacc Ht He Hl He0)
    as (b & _ & _ & _ & ->).
  exact (after_reconcile_frame a b q e0 (start r) He0).
Qed.

Lemma reconcile_touches_one_item_witness :
  let r1 := (_sync_wikidata_artwork one_match today relief_1916
               remote_with_two_items).2 in
  store r1 !! "Q7" = Some bare_item
  /\ exists e1, store r1 !! "Q42" = Some e1
       /\ labels e1 !! "fr" = Some "Relief d'une femme".
Proof.
  destruct (reconcile_touches_one_item one_match today relief_1916 "1916.1"
              (EStr "Q11060274") remote_with_two_items "Q42" french_item
              eq_refl eq_refl eq_refl eq_refl) as (Ho & e1 & He1 & Hl & _).
  cbv zeta. split.
  - rewrite Ho by discriminate. reflexivity.
  - exists e1. split; [exact He1|].
    destruct (Hl "fr" ltac:(discriminate)) as [-> _]. reflexivity.
Defined.

(** ** The callers of the routine *)

(** X12: [update_wikidata] does not return the [None] of an unparsable
    lookup response: unpacking it raises a [TypeError]; the knowledge base
    is as it was. The lookup is made for a record with an accession number,
    a title that is not blank and a type of the table. *)
Theorem update_wikidata_unparsable svc now a acc e r :
  accession_number a = Some acc ->
  clean_title (title a) <> "" ->
  entities_type !! type a = Some e ->
  lookup_result svc acc = None ->
  update_wikidata svc now a r = (Raises unpack_none, r).
Proof.
  intros Hacc Ht He Hl.
  destruct (build_inr now a acc e Hacc Ht He) as (b & Hb & _ & <- & _).
  unfold update_wikidata. now rewrite (sync_unparsable svc now a b r Hb Hl).
Qed.

Lemma update_wikidata_unparsable_witness :
  update_wikidata unparsable today relief_1916 remote_with_item
  = (Raises unpack_none, remote_with_item).
Proof.
  apply (update_wikidata_unparsable unparsable today relief_1916 "1916.1"
           (EStr "Q11060274"));
    [reflexivity | vm_compute; discriminate | reflexivity | reflexivity].
Defined.

Lemma split_on_no_sep sep s :
  (forall a b, s <> a +:+ String sep b) -> split_on sep s = [s].
Proof.
  induction s as [|c s IH]; intros H; [reflexivity|].
  cbn [split_on]. destruct (Ascii.eqb_spec c sep) as [->|Hne].
  - now contradiction (H "" s).
  - rewrite IH; [reflexivity|]. intros a b ->. now apply (H (String c a) b).
Qed.

Lemma all_word_no_colon q a b : all_word q = true -> q +:+ "]]" <> a +:+ String ":" b.
Proof.
  revert a. induction q as [|c q IH]; intros a Hq Heq.
  - destruct a as [|x [|y [|z a]]]; discriminate.
  - cbn [all_word] in Hq. apply andb_prop in Hq as [Hc Hq].
    destruct a as [|x a].
    + injection Heq as -> _. discriminate.
    + injection Heq as -> Heq. now apply (IH a).
Qed.

Lemma remove_nonword_item q : all_word q = true -> remove_nonword (q +:+ "]]") = q.
Proof.
  induction q as [|c q IH]; intros Hq; [reflexivity|].
  cbn [all_word] in Hq. apply andb_prop in Hq as [Hc Hq].
  rewrite append_cons. cbn [remove_nonword]. now rewrite Hc, IH.
Qed.

Lemma wikidata_url_of_word q :
  all_word q = true ->
  wikidata_url (str_item q) = Returns ("https://www.wikidata.org/wiki/" +:+ q).
Proof.
  intros Hq. unfold wikidata_url, str_item.
  assert (Hs : split_on ":" ("[[wikidata:" +:+ q +:+ "]]")
               = ["[[wikidata"; q +:+ "]]"]).
  { rewrite !append_cons, append_nil_l. cbn.
    rewrite split_on_no_sep; [reflexivity|].
    intros a b. now apply all_word_no_colon. }
  rewrite Hs. now rewrite remove_nonword_item.
Qed.

(** X13: the URL that [batch_sync] derives from the item page of a Qid
    made of word characters is "https://www.wikidata.org/wiki/<Qid>". *)
Theorem wikidata_url_of_item q :
  all_word q = true ->
  wikidata_url (str_item q) = Returns ("https://www.wikidata.org/wiki/" +:+ q).
Proof. exact (wikidata_url_of_word q). Qed.

Lemma wikidata_url_of_item_witness :
  wikidata_url "[[wikidata:Q42]]" = Returns "https://www.wikidata.org/wiki/Q42".
Proof. apply (wikidata_url_of_item "Q42"). reflexivity. Defined.





Lemma batch_loop_shift svc clock n i l acc r out :
  batch_loop svc clock (n + i) l acc r out
  = batch_loop svc (fun j => clock (n + j)) i l acc r out.
Proof.
  revert i acc r out. induction l as [|x l IH]; intros i acc r out;
    cbn [batch_loop]; [reflexivity|].
  destruct (_sync_wikidata_artwork svc (clock (n + i)) (artwork x) r)
    as [[v|ex] r']; [|reflexivity].
  destruct (unpack2 v) as [[message item]|ex]; [|reflexivity].
  cbv zeta. destruct (link_item item x) as [y|ex]; [|reflexivity].
  rewrite <- IH. now rewrite Nat.add_succ_r.
Qed.

Lemma batch_loop_acc svc clock i l acc r out :
  batch_loop svc clock i l acc r out
  = let e := batch_loop svc clock i l [] r [] in
    {| batch_result := match batch_result e with
                       | Returns res => Returns (acc ++ res)
                       | Raises ex => Raises ex
                       end;
       batch_world := batch_world e;
       printed := out ++ printed e |}.
Proof.
  revert i acc r out. induction l as [|x l IH]; intros i acc r out;
    cbn [batch_loop].
  - cbn. now rewrite !app_nil_r.
  - destruct (_sync_wikidata_artwork svc (clock i) (artwork x) r)
      as [[v|ex] r']; [|cbn; now rewrite app_nil_r].
    destruct (unpack2 v) as [[message item]|ex]; [|cbn; now rewrite app_nil_r].
    cbv zeta. destruct (link_item item x) as [y|ex]; [|reflexivity].
    rewrite (IH (S i) (acc ++ [y])), (IH (S i) ([] ++ [y])). cbv zeta. cbn.
    destruct (batch_result (batch_loop svc clock (S i) l [] r' [])) as [res|ex];
      now rewrite <- !app_assoc.
Qed.

Lemma batch_loop_app svc clock i l1 l2 acc r out :
  batch_loop svc clock i (l1 ++ l2) acc r out
  = let e1 := batch_loop svc clock i l1 acc r out in
    match batch_result e1 with
    | Returns acc1 =>
        batch_loop svc clock (length l1 + i) l2 acc1 (batch_world e1) (printed e1)
    | Raises _ => e1
    end.
Proof.
  revert i acc r out. induction l1 as [|x l1 IH]; intros i acc r out;
    cbn [app batch_loop]; [reflexivity|].
  destruct (_sync_wikidata_artwork svc (clock i) (artwork x) r)
    as [[v|ex] r']; [|reflexivity].
  destruct (unpack2 v) as [[message item]|ex]; [|reflexivity].
  cbv zeta. destruct (link_item item x) as [y|ex]; [|reflexivity].
  rewrite IH. cbv zeta. cbn [length]. now rewrite Nat.add_succ_r.
Qed.

(** X15: a batch over two lists put end to end is the batch over the
    first followed, when that one returns, by the batch over the second on
    the knowledge base the first left: the results and the printed
    messages are put end to end; when the first raises, the second is not
    run. *)
Theorem batch_sync_app svc clock l1 l2 r :
  batch_sync svc clock (l1 ++ l2) r
  = let e1 := batch_sync svc clock l1 r in
    match batch_result e1 with
    | Returns res1 =>
        let e2 := batch_sync svc (fun j => clock (length l1 + j)) l2
                    (batch_world e1) in
        {| batch_result := match batch_result e2 with
                           | Returns res2 => Returns (res1 ++ res2)
                           | Raises ex => Raises ex
                           end;
           batch_world := batch_world e2;
           printed := printed e1 ++ printed e2 |}
    | Raises _ => e1
    end.
Proof.
  unfold batch_sync. rewrite batch_loop_app. cbv zeta.
  destruct (batch_result (batch_loop svc clock 0 l1 [] r [])) as [res1|ex];
    [|reflexivity].
  rewrite batch_loop_shift. apply batch_loop_acc.
Qed.

(** X16: a record without accession number, or one with an accession number,
    a title that is not blank and a type of the table whose lookup response
    does not parse, ends the batch with a [TypeError]: no list is returned,
    the records after it are not synchronised, and the knowledge base is the
    one the records before it left. *)
Theorem batch_sync_aborts svc clock l1 x l2 r res1 :
  batch_result (batch_sync svc clock l1 r) = Returns res1 ->
  let e1 := batch_sync svc clock l1 r in
  (accession_number (artwork x) = None ->
   batch_sync svc clock (l1 ++ x :: l2) r
   = {| batch_result :=
          Raises (Raised (TypeError ("can only concatenate str (not " +:+ dq
                                      +:+ "KeyError" +:+ dq +:+ ") to str")));
        batch_world := batch_world e1;
        printed := printed e1 |})
  /\ (forall acc e,
        accession_number (artwork x) = Some acc ->
        clean_title (title (artwork x)) <> "" ->
        entities_type !! type (artwork x) = Some e ->
        lookup_result svc acc = None ->
        batch_sync svc clock (l1 ++ x :: l2) r
        = {| batch_result := Raises unpack_none;
             batch_world := batch_world e1;
             printed := printed e1 |}).
Proof.
  intros H1. cbv zeta. unfold batch_sync in *.
  rewrite batch_loop_app. cbv zeta. rewrite H1. cbn [batch_loop]. split.
  - intros Hacc.
    unfold _sync_wikidata_artwork.
    now rewrite (build_no_accession (clock (length l1 + 0)) (artwork x) Hacc).
  - intros acc e Hacc Ht He Hl.
    destruct (build_inr (clock (length l1 + 0)) (artwork x) acc e Hacc Ht He)
      as (b & Hb & _ & <- & _).
    now rewrite (sync_unparsable svc _ (artwork x) b _ Hb Hl).
Qed.

Lemma batch_sync_aborts_witness :
  batch_result (batch_sync one_match (every_day today)
                  ([relief_record] ++ nameless_record :: [relief_record])
                  remote_with_item)
  = Raises (Raised (TypeError ("can only concatenate str (not " +:+ dq
                               +:+ "KeyError" +:+ dq +:+ ") to str")))
  /\ length (log (batch_world
                    (batch_sync one_match (every_day today)
                       ([relief_record] ++ nameless_record :: [relief_record])
                       remote_with_item))) = 10.
Proof.
  destruct (batch_sync_aborts one_match (every_day today) [relief_record]
              nameless_record [relief_record] remote_with_item
              [ {| artwork := relief_1916;
                   wikidata := ["https://www.wikidata.org/wiki/Q42"] |} ])
    as [H _]; [vm_compute; reflexivity|].
  rewrite (H eq_refl). split; [reflexivity | vm_compute; reflexivity].
Defined.

(** X17: a batch of one record, with an accession number, a title that is
    not blank and a type of the table, whose lookup matches one item, with a
    Qid made of word characters, returns the record with the URL
    "https://www.wikidata.org/wiki/<Qid>" appended to its list, unless the
    list has it already, and then returns the record as it is. *)
Theorem batch_sync_links_matched_item svc clock x r acc e q e0 :
  accession_number (artwork x) = Some acc ->
  clean_title (title (artwork x)) <> "" ->
  entities_type !! type (artwork x) = Some e ->
  lookup_result svc acc = Some [q] ->
  store r !! q = Some e0 ->
  all_word q = true ->
  let u := "https://www.wikidata.org/wiki/" +:+ q in
  batch_result (batch_sync svc clock [x] r)
  = Returns [ if decide (u ∈ wikidata x) then x
              else {| artwork := artwork x; wikidata := wikidata x ++ [u] |} ].
Proof.
  intros Hacc Ht He Hl He0 Hq. cbv zeta.
  destruct (build_inr (clock 0) (artwork x) acc e Hacc Ht He)
    as (b & Hb & _ & Ha & _ & _ & _ & _ & _ & _ & Hm & _ & _ & Hj & _).
  rewrite <- Ha in Hl.
  pose proof (sync_one_match svc (clock 0) (artwork x) b r q e0 Hb Hm Hj Hl He0)
    as H.
  rewrite after_reconcile_item_return in H.
  unfold batch_sync. cbn [batch_loop]. rewrite H. cbn [unpack2]. cbv zeta.
  unfold link_item.
  change (truthy_item (Some (str_item q))) with true. cbv iota.
  change (default "" (Some (str_item q))) with (str_item q).
  rewrite (wikidata_url_of_word q Hq).
  destruct (decide (_ ∉ wikidata x)) as [Hn|Hn].
  - rewrite decide_False by exact Hn. reflexivity.
  - apply dec_stable in Hn. rewrite decide_True by exact Hn. reflexivity.
Qed.

Lemma batch_sync_links_matched_item_witness :
  batch_result (batch_sync one_match (every_day today) [relief_record]
                  remote_with_item)
  = Returns [ {| artwork := relief_1916;
                 wikidata := ["https://www.wikidata.org/wiki/Q42"] |} ].
Proof.
  rewrite (batch_sync_links_matched_item one_match (every_day today)
             relief_record remote_with_item "1916.1" (EStr "Q11060274") "Q42"
             bare_item eq_refl ltac:(vm_compute; discriminate) eq_refl eq_refl eq_refl eq_refl).
  reflexivity.
Defined.

(** ** Failures of the builder, and the date of a build *)

(** X18: a record with an accession number and a title that is not blank
    whose type is not a key of the table makes the whole routine raise the
    [KeyError] of the lookup in the table, whatever the lookup service would
    answer: the knowledge base is as it was and no write call is issued. *)
Theorem unknown_type_raises_before_any_write svc now a acc r :
  accession_number a = Some acc ->
  clean_title (title a) <> "" ->
  entities_type !! type a = None ->
  _sync_wikidata_artwork svc now a r = (Raise (KeyError (type a)), r)
  /\ writes_of svc now a r = [].
Proof.
  intros Hacc Ht He.
  assert (H : _sync_wikidata_artwork svc now a r = (Raise (KeyError (type a)), r)).
  { unfold _sync_wikidata_artwork.
    now rewrite (build_unknown_type now a acc Hacc Ht He). }
  split; [exact H|].
  apply (writes_of_log svc now a r _ _ [] H). now rewrite app_nil_r.
Qed.

Lemma unknown_type_raises_before_any_write_witness :
  _sync_wikidata_artwork one_match today poster remote_with_item
  = (Raise (KeyError "Poster"), remote_with_item)
  /\ writes_of one_match today poster remote_with_item = [].
Proof.
  apply (unknown_type_raises_before_any_write one_match today poster "1916.1"
           remote_with_item);
    [reflexivity | vm_compute; discriminate | reflexivity].
Defined.

(** X19: two builds of the same record on different dates have the same
    label and description, and statement sets with the same main snaks and
    qualifiers, claim by claim: only the retrieval date in the references
    depends on the date of the run. *)
Theorem build_date_only_in_references now1 now2 a b1 b2 :
  build now1 a = Ok (inr b1) ->
  build now2 a = Ok (inr b2) ->
  b_label b1 = b_label b2
  /\ b_description b1 = b_description b2
  /\ map (fun j => (mainsnak j, cj_qualifiers j)) (statement_set b1)
     = map (fun j => (mainsnak j, cj_qualifiers j)) (statement_set b2)
  /\ Forall (fun j => cj_references j = [provenance_json now1 a])
       (statement_set b1)
  /\ Forall (fun j => cj_references j = [provenance_json now2 a])
       (statement_set b2).
Proof.
  intros Hb1 Hb2.
  destruct (build_inr_inv now1 a b1 Hb1) as (acc & e & Hacc & Ht & He).
  destruct (build_inr now1 a acc e Hacc Ht He)
    as (b1' & Hb1' & _ & _ & _ & _ & Hl1 & Hd1 & _).
  destruct (build_inr now2 a acc e Hacc Ht He)
    as (b2' & Hb2' & _ & _ & _ & _ & Hl2 & Hd2 & _).
  rewrite Hb1 in Hb1'. injection Hb1' as <-.
  rewrite Hb2 in Hb2'. injection Hb2' as <-.
  rewrite (build_statement_set now1 a acc e b1 Hacc Ht He Hb1).
  rewrite (build_statement_set now2 a acc e b2 Hacc Ht He Hb2).
  split_all.
  - congruence.
  - congruence.
  - rewrite <- !list_fmap_compose. reflexivity.
  - apply Forall_fmap, Forall_forall. now intros c _.
  - apply Forall_fmap, Forall_forall. now intros c _.
Qed.

Lemma build_date_only_in_references_witness :
  exists b1 b2,
    build today relief_1916 = Ok (inr b1)
    /\ build next_day relief_1916 = Ok (inr b2)
    /\ map mainsnak (statement_set b1) = map mainsnak (statement_set b2)
    /\ statement_set b1 <> statement_set b2.
Proof.
  eexists _, _. split; [vm_compute; reflexivity|].
  split; [vm_compute; reflexivity|].
  split; [|vm_compute; discriminate].
  pose proof (build_date_only_in_references today next_day relief_1916 _ _
                ltac:(vm_compute; reflexivity) ltac:(vm_compute; reflexivity))
    as (_ & _ & H & _).
  apply (f_equal (map fst)) in H.
  rewrite <- !list_fmap_compose in H. exact H.
Defined.

(** X20: a record with an accession number whose title is blank, that is
    empty once stripped of white space, makes the whole routine raise the
    [ValueError] with which the client library refuses an empty monolingual
    text, whatever the type of the record and whatever the lookup service
    would answer: the knowledge base is as it was and no write call is
    issued. *)
Theorem blank_title_raises_before_any_write svc now a acc r :
  accession_number a = Some acc ->
  clean_title (title a) = "" ->
  _sync_wikidata_artwork svc now a r = (Raise empty_text, r)
  /\ writes_of svc now a r = [].
Proof.
  intros Hacc Ht.
  pose proof (sync_blank_title svc now a acc r Hacc Ht) as H.
  split; [exact H|].
  apply (writes_of_log svc now a r _ _ [] H). now rewrite app_nil_r.
Qed.

Lemma blank_title_raises_before_any_write_witness :
  entities_type !! type blank_title = None
  /\ _sync_wikidata_artwork one_match today blank_title remote_with_item
     = (Raise (ValueError "text and language cannot be empty"),
        remote_with_item)
  /\ writes_of one_match today blank_title remote_with_item = [].
Proof.
  split; [reflexivity|].
  apply (blank_title_raises_before_any_write one_match today blank_title
           "1916.1" remote_with_item); reflexivity.
Defined.

(** X21: the builder checks the record in this order. Without accession
    number it raises the [TypeError] of the handler of the missing key;
    else with a blank title it raises the [ValueError] of the empty text;
    else with a type that is not a key of the table it raises the
    [KeyError] of the lookup in the table; else it completes, and the claims
    it appends are those of [claims_of]. It never returns early. *)
Theorem build_outcome now a :
  match accession_number a with
  | None =>
      build now a
      = Raise (TypeError ("can only concatenate str (not " +:+ dq +:+ "KeyError"
                          +:+ dq +:+ ") to str"))
  | Some acc =>
      if decide (clean_title (title a) = "") then build now a = Raise empty_text
      else
        match entities_type !! type a with
        | None => build now a = Raise (KeyError (type a))
        | Some e =>
            exists b, build now a = Ok (inr b)
              /\ b_accession_number b = acc
              /\ b_claims b = claims_of a e
        end
  end.
Proof.
  destruct (accession_number a) as [acc|] eqn:Hacc;
    [|now apply build_no_accession].
  destruct (decide (clean_title (title a) = "")) as [Ht|Ht];
    [now apply build_blank_title with acc|].
  destruct (entities_type !! type a) as [e|] eqn:He;
    [|now apply build_unknown_type with acc].
  destruct (build_inr now a acc e Hacc Ht He) as (b & Hb & Hc & Ha & _).
  now exists b.
Qed.
